(** * Resume screening: retrieval and ranking pipeline

    A shallow embedding of [ranker.py] and [embeddings.py], and of their
    callers in [summarizer.py] and [app.py].

    - Python exceptions are values of [exn]; a call that may raise returns a
      [result].  Only instances of Python's [Exception] class are modelled
      (the ones an [except Exception] clause catches); interrupts are not.
    - [logging] calls are kept as an explicit log: a computation of type
      [M A] yields the records it logged together with its outcome.
    - Distances and scores are floating-point numbers in the program.
      Where only their values matter they are exact rationals ([Q]); this
      describes the runs in which every distance is a number.  Where the
      order of the scores matters, module [Fp] has [rank_resumes] over
      floats that may be infinite or NaN, with the sort left to the runtime
      on keys it cannot order; [float_rank_resumes] relates the two.
    - The vector store, the document parsers and the file system are objects
      of third-party libraries: they are parameters of the embedding
      (records of functions), never fixed here.  So are the chat model and
      the two formatting calls of the page.
    - Streamlit calls are kept as the list of what they put on the page,
      in order. *)

From Stdlib Require Import ZArith QArith Lia.
From Stdlib Require Import Sorting.Sorted Sorting.Permutation.
From Stdlib Require Import DecimalString.
From stdpp Require Import base option list sorting strings gmap.

Local Open Scope string_scope.
Local Open Scope list_scope.

(** ** Exceptions, results and the logging monad *)

(** A raised Python exception, with the text [str(e)] gives for it. *)
Record exn : Type := Exception { exn_str : string }.

Inductive result (A : Type) : Type :=
| Ok (a : A)
| Raise (e : exn).
Arguments Ok {A} a.
Arguments Raise {A} e.

Inductive level : Type := INFO | WARNING | ERROR.

Record log_record : Type := LogRecord { levelname : level; message : string }.

(** A computation: what it logged, in order, and how it ended. *)
Definition M (A : Type) : Type := (list log_record * result A)%type.

Definition ret {A} (a : A) : M A := ([], Ok a).

Definition raise {A} (e : exn) : M A := ([], Raise e).

Definition bind {A B} (m : M A) (k : A -> M B) : M B :=
  match m with
  | (l1, Ok a) => let '(l2, r) := k a in (l1 ++ l2, r)
  | (l1, Raise e) => (l1, Raise e)
  end.

(** [try: m except Exception as e: h e]. *)
Definition try_except {A} (m : M A) (h : exn -> M A) : M A :=
  match m with
  | (l1, Raise e) => let '(l2, r) := h e in (l1 ++ l2, r)
  | (l1, Ok a) => (l1, Ok a)
  end.

(** A library call: it logs nothing of its own. *)
Definition call {A} (r : result A) : M A := ([], r).

Definition log (lv : level) (msg : string) : M unit :=
  ([LogRecord lv msg], Ok tt).

Notation "'let*' x := m 'in' k" := (bind m (fun x => k))
  (at level 10, x name, m at level 100, k at level 200).
Notation "m >> k" := (bind m (fun _ => k))
  (at level 100, k at level 200, right associativity).

Definition outcome {A} (m : M A) : result A := snd m.

(** [str(n)] for a length. *)
Definition str_of_nat (n : nat) : string :=
  NilZero.string_of_uint (Nat.to_uint n).

(** ** Data *)

(** [langchain.schema.Document]. *)
Record Document : Type := mkDocument {
  page_content : string;
  metadata : gmap string string
}.

(** The [candidate_info] dictionary: its three keys all are always
    present, so it is a record. *)
Record candidate : Type := mkCandidate {
  source : string;
  score : Q;
  content : string
}.

(** The vector store object, as [rank_resumes] uses it: the one method
    [similarity_search_with_score(query, k)], which embeds the query, asks
    the index for the [k] nearest chunks and returns them with their
    distances, or raises. *)
Record FAISS : Type := mkFAISS {
  similarity_search_with_score : string -> Z -> result (list (Document * Q))
}.

(** ** ranker.py *)

(** [doc.metadata.get("source", "Unknown")], [1 - score],
    [doc.page_content]. *)
Definition candidate_info (doc : Document) (distance : Q) : candidate :=
  {| source := default "Unknown" (metadata doc !! "source");
     score := 1 - distance;
     content := page_content doc |}.

(** The [for doc, score in results_with_scores] loop, appending to
    [ranked_candidates]. *)
Definition collect_candidates (results : list (Document * Q)) : list candidate :=
  fold_left (fun acc r => acc ++ [candidate_info (fst r) (snd r)]) results [].

(** Python's [list.sort] is stable: entries whose keys compare equal keep
    their order, also under [reverse=True].  [stable_sort leb] is the stable
    sort for the order [leb]: [x] is inserted in front of a sorted list
    whose entries all came after it, and stays before the first entry it
    may precede. *)
Section StableSort.
Context {A : Type} (leb : A -> A -> bool).

Fixpoint insert_sorted (x : A) (l : list A) : list A :=
  match l with
  | [] => [x]
  | y :: l' => if leb x y then x :: l else y :: insert_sorted x l'
  end.

Definition stable_sort (l : list A) : list A := foldr insert_sorted [] l.
End StableSort.

(** [key=lambda x: x["score"], reverse=True]: [c] may precede [c'] when
    the score of [c'] is not above that of [c].  Scores here are numbers,
    which any two compare; for a NaN among them see [Fp]. *)
Definition score_desc (c c' : candidate) : bool := Qle_bool (score c') (score c).

(** [ranked_candidates.sort(key=lambda x: x["score"], reverse=True)]. *)
Definition sort_desc (l : list candidate) : list candidate :=
  stable_sort score_desc l.

Definition rank_resumes (vector_store : FAISS) (job_description : string)
    (top_k : Z) : M (list candidate) :=
  if String.eqb job_description "" then
    log WARNING "Job description is empty. Cannot rank resumes." >>
    ret []
  else
    try_except
      (let* results_with_scores :=
         call (similarity_search_with_score vector_store job_description top_k) in
       let ranked_candidates := collect_candidates results_with_scores in
       let ranked_candidates := sort_desc ranked_candidates in
       log INFO ("Ranked " ++ str_of_nat (length ranked_candidates) ++ " resumes.") >>
       ret ranked_candidates)
      (fun e =>
         log ERROR ("Error ranking resumes: " ++ exn_str e) >>
         ret []).

(** ** ranker.py, with scores that may be NaN

    Above, a distance is a number.  What the store hands out are floats, and
    a float may also be infinite or NaN.  A NaN compares false with
    everything, itself included, so with a NaN among the keys [list.sort]
    has keys it cannot order, and what it then does to the list depends on
    the interpreter's sorting algorithm.  The module below is [rank_resumes]
    over such floats, with the sort taken from the runtime.  Finite values
    stay exact rationals; rounding is not modelled. *)
Module Fp.

Inductive float : Type :=
| Finite (q : Q)
| PosInf
| NegInf
| NaN.

Definition is_nan (x : float) : bool :=
  match x with
  | NaN => true
  | _ => false
  end.

(** [x <= y]. *)
Definition fle (x y : float) : bool :=
  match x, y with
  | NaN, _ | _, NaN => false
  | NegInf, _ | _, PosInf => true
  | Finite p, Finite q => Qle_bool p q
  | PosInf, _ | _, NegInf => false
  end.

(** [x == y]. *)
Definition feq (x y : float) : bool := fle x y && fle y x.

(** [x - y]. *)
Definition fsub (x y : float) : float :=
  match x, y with
  | NaN, _ | _, NaN => NaN
  | Finite p, Finite q => Finite (p - q)
  | PosInf, PosInf | NegInf, NegInf => NaN
  | PosInf, _ | _, NegInf => PosInf
  | NegInf, _ | _, PosInf => NegInf
  end.

Record candidate : Type := mkCandidate {
  source : string;
  score : float;
  content : string
}.

Record FAISS : Type := mkFAISS {
  similarity_search_with_score : string -> Z -> result (list (Document * float))
}.

(** [doc.metadata.get("source", "Unknown")], [1 - score],
    [doc.page_content]. *)
Definition candidate_info (doc : Document) (distance : float) : candidate :=
  {| source := default "Unknown" (metadata doc !! "source");
     score := fsub (Finite 1) distance;
     content := page_content doc |}.

Definition collect_candidates (results : list (Document * float))
    : list candidate :=
  fold_left (fun acc r => acc ++ [candidate_info (fst r) (snd r)]) results [].

(** [c] may precede [c'] when the score of [c'] is not above that of
    [c]. *)
Definition score_desc (c c' : candidate) : bool := fle (score c') (score c).

(** [ranked_candidates.sort(key=lambda x: x["score"], reverse=True)], as
    the runtime does it.  Whatever the keys, the list it leaves is a
    rearrangement of the list it was given; when no key is NaN, the keys are
    ordered and it is the stable descending sort. *)
Record Runtime : Type := mkRuntime {
  list_sort_desc : list candidate -> list candidate;
  list_sort_rearranges : forall l, Permutation l (list_sort_desc l);
  list_sort_ordered : forall l,
    (forall c, c ∈ l -> is_nan (score c) = false) ->
    list_sort_desc l = stable_sort score_desc l
}.

Definition rank_resumes (py : Runtime) (vector_store : FAISS)
    (job_description : string) (top_k : Z) : M (list candidate) :=
  if String.eqb job_description "" then
    log WARNING "Job description is empty. Cannot rank resumes." >>
    ret []
  else
    try_except
      (let* results_with_scores :=
         call (similarity_search_with_score vector_store job_description top_k) in
       let ranked_candidates := collect_candidates results_with_scores in
       let ranked_candidates := list_sort_desc py ranked_candidates in
       log INFO ("Ranked " ++ str_of_nat (length ranked_candidates) ++ " resumes.") >>
       ret ranked_candidates)
      (fun e =>
         log ERROR ("Error ranking resumes: " ++ exn_str e) >>
         ret []).

End Fp.

(** A candidate and a store of the exact model, read as ones over
    floats. *)
Definition float_candidate (c : candidate) : Fp.candidate :=
  {| Fp.source := source c;
     Fp.score := Fp.Finite (score c);
     Fp.content := content c |}.

Definition float_store (vs : FAISS) : Fp.FAISS :=
  {| Fp.similarity_search_with_score := fun query k =>
       match similarity_search_with_score vs query k with
       | Ok results => Ok (map (fun r => (fst r, Fp.Finite (snd r))) results)
       | Raise e => Raise e
       end |}.

(** ** embeddings.py *)

(** [str.endswith]. *)
Definition endswith (s suffix : string) : bool :=
  let n := String.length s in
  let m := String.length suffix in
  (m <=? n)%nat && String.eqb (String.substring (n - m) m s) suffix.

(** [sep.join(parts)]. *)
Definition join (sep : string) (parts : list string) : string :=
  String.concat sep parts.

Definition newline : string := String (Ascii.ascii_of_nat 10) EmptyString.

(** What the program calls outside itself: the file system ([os]), the two
    document parsers ([fitz], [docx]) and the langchain objects used to
    build a vector store.  Each may raise, except [os.path.join] and
    [os.path.isfile].
    - [fitz_page_texts path]: [fitz.open(path)], then [page.get_text()] of
      every page;
    - [docx_paragraph_texts path]: [docx.Document(path)], then [para.text]
      of every paragraph;
    - [split_documents chunk_size chunk_overlap documents]:
      [RecursiveCharacterTextSplitter(chunk_size, chunk_overlap)
       .split_documents(documents)];
    - [HuggingFaceEmbeddings model_name] and [from_documents docs embeddings]
      ([FAISS.from_documents]). *)
Record Libraries : Type := mkLibraries {
  os_listdir : string -> result (list string);
  os_path_join : string -> string -> string;
  os_path_isfile : string -> bool;
  fitz_page_texts : string -> result (list string);
  docx_paragraph_texts : string -> result (list string);
  embeddings_model : Type;
  split_documents : Z -> Z -> list Document -> result (list Document);
  HuggingFaceEmbeddings : string -> result embeddings_model;
  from_documents : list Document -> embeddings_model -> result FAISS
}.

Definition extract_text_from_file (env : Libraries) (file_path : string) : M string :=
  try_except
    (if endswith file_path ".pdf" then
       let* pages := call (fitz_page_texts env file_path) in
       ret (join "" pages)
     else if endswith file_path ".docx" then
       let* paragraphs := call (docx_paragraph_texts env file_path) in
       ret (join newline paragraphs)
     else
       log WARNING ("Unsupported file format: " ++ file_path) >>
       ret "")
    (fun e =>
       log ERROR ("Error extracting text from " ++ file_path ++ ": " ++ exn_str e) >>
       ret "").

(** The body of the [for filename in os.listdir(folder_path)] loop, over
    the names still to visit; [documents] is the list built so far. *)
Fixpoint collect_documents (env : Libraries) (folder_path : string)
    (filenames : list string) (documents : list Document) : M (list Document) :=
  match filenames with
  | [] => ret documents
  | filename :: rest =>
      let file_path := os_path_join env folder_path filename in
      if os_path_isfile env file_path then
        let* text := extract_text_from_file env file_path in
        if String.eqb text "" then
          collect_documents env folder_path rest documents
        else
          collect_documents env folder_path rest
            (documents ++ [mkDocument text {[ "source" := filename ]}])
      else
        collect_documents env folder_path rest documents
  end.

Definition get_documents_from_folder (env : Libraries) (folder_path : string)
    : M (list Document) :=
  let* filenames := call (os_listdir env folder_path) in
  collect_documents env folder_path filenames [].

Definition create_vector_store (env : Libraries) (documents : list Document)
    : M FAISS :=
  try_except
    (let* split_docs := call (split_documents env 1000 200 documents) in
     let* embeddings :=
       call (HuggingFaceEmbeddings env "sentence-transformers/all-MiniLM-L6-v2") in
     let* vector_store := call (from_documents env split_docs embeddings) in
     log INFO "Vector store created successfully." >>
     ret vector_store)
    (fun e =>
       log ERROR ("Error creating vector store: " ++ exn_str e) >>
       raise e).

(** ** Components the repository delegates to libraries

    Chunking and nearest-neighbour search are not written in this
    repository: [create_vector_store] and [rank_resumes] call langchain's
    text splitter and FAISS store for them.  The two components are
    modelled below from their written contracts. *)

(** The error conditions the contracts of the chunker and of the index
    name. *)
Inductive spec_error : Type := ConfigurationError | EmptyCorpusError.

Record Chunk : Type := mkChunk {
  source_id : string;
  sequence_index : Z;
  text : string;
  char_span : Z * Z
}.

Record EmbeddedChunk : Type := mkEmbeddedChunk {
  chunk : Chunk;
  vector : list Q
}.

(** Whitespace, as [str.isspace] sees it on ASCII text. *)
Definition is_space (a : Ascii.ascii) : bool :=
  let n := Ascii.nat_of_ascii a in
  (n =? 32)%nat || ((9 <=? n)%nat && (n <=? 13)%nat).

Definition is_blank (s : string) : bool :=
  forallb is_space (String.list_ascii_of_string s).

Section Chunker.
(** The cutting of a text that is not blank into overlapping pieces along
    the separator hierarchy.  The contract does not fix where the cuts
    fall, so the cutting stays a parameter. *)
Variable windows : string -> Z -> Z -> list Chunk.

(** Modelled from the spec: the chunker's [split(text, chunk_size,
    overlap)], which the sources only call through langchain's
    [RecursiveCharacterTextSplitter].  [overlap < chunk_size] is required,
    else the call fails with [ConfigurationError]; empty or
    whitespace-only input produces zero chunks. *)
Definition split (text : string) (chunk_size overlap : Z)
    : spec_error + list Chunk :=
  if (chunk_size <=? overlap)%Z then inl ConfigurationError
  else if is_blank text then inr []
  else inr (windows text chunk_size overlap).
End Chunker.

(** The index keeps its entries in insertion order. *)
Record Index : Type := mkIndex { entries : list EmbeddedChunk }.

(** Modelled from the spec: the vector index's [build(entries)], which the
    sources only reach through [FAISS.from_documents]; it fails with
    [EmptyCorpusError] if [entries] is empty. *)
Definition build (es : list EmbeddedChunk) : spec_error + Index :=
  match es with
  | [] => inl EmptyCorpusError
  | _ :: _ => inr (mkIndex es)
  end.

(** An entry may precede another when its distance is not larger. *)
Definition nearer (a b : EmbeddedChunk * Q) : bool := Qle_bool (snd a) (snd b).

Section Query.
(** The distance metric of the embedding space, the same at build and at
    query time. *)
Variable distance : list Q -> list Q -> Q.

(** Modelled from the spec: the vector index's [query(vector, k)], which
    the sources only reach through [similarity_search_with_score]: the
    entries with their distances, ascending by distance, ties broken by
    insertion order, [k] clamped to the number of entries if it exceeds
    it.  The contract says nothing on a negative [k]; no entry is
    returned then. *)
Definition query (idx : Index) (v : list Q) (k : Z)
    : list (EmbeddedChunk * Q) :=
  let n := Z.of_nat (length (entries idx)) in
  let k := if (n <? k)%Z then n else k in
  take (Z.to_nat k)
    (stable_sort nearer (map (fun e => (e, distance v (vector e))) (entries idx))).
End Query.

(** ** summarizer.py *)

(** The chat model object, as [generate_summary] uses it through the chain
    [prompt | llm]: [chat_invoke text] sends the formatted prompt and gives
    the [content] of the response, or raises. *)
Record ChatModel : Type := mkChatModel {
  chat_invoke : string -> result string
}.

(** What [summarizer.py] calls outside itself: the [GOOGLE_API_KEY] read
    when the module is loaded ([None] when it is not set) and the
    constructor of the chat model, given the model name and the key. *)
Record Narrator : Type := mkNarrator {
  API_KEY : option string;
  ChatGoogleGenerativeAI : string -> option string -> result ChatModel
}.

Definition get_llm (nenv : Narrator) : M (option ChatModel) :=
  try_except
    (let* llm := call (ChatGoogleGenerativeAI nenv "gemini-pro" (API_KEY nenv)) in
     ret (Some llm))
    (fun e =>
       log ERROR ("Error initializing LLM: " ++ exn_str e) >>
       ret None).

(** [prompt_template], cut at its two input variables: the text before
    [{job_description}], the text between it and [{resume_content}], and
    the text after. *)
Definition prompt_before : string :=
  join newline
    [ "";
      "    You are an expert HR assistant. Your task is to generate a concise summary of a candidate's resume,";
      "    highlighting their suitability for a specific job.";
      "";
      "    **Job Description:**";
      "    " ].

Definition prompt_between : string :=
  join newline
    [ "";
      "";
      "    **Candidate's Resume Content:**";
      "    " ].

Definition prompt_after : string :=
  join newline
    [ "";
      "";
      "    **Instructions:**";
      "    - Based on the job description, highlight the candidate's key skills, relevant projects, and educational background.";
      "    - Keep the summary to 3-4 bullet points.";
      "    - Be objective and focus on the facts presented in the resume.";
      "    - If the resume is a poor match, state that clearly.";
      "";
      "    **Summary:**";
      "    " ].

(** The prompt the chain builds from its two inputs. *)
Definition format_prompt (job_description resume_content : string) : string :=
  prompt_before ++ job_description ++ prompt_between ++ resume_content
  ++ prompt_after.

(** [candidate] is a dictionary with the keys [rank_resumes] gives it.  A
    chat model object is truthy, so [if not llm] is the test for [None]. *)
Definition generate_summary (nenv : Narrator) (candidate : candidate)
    (job_description : string) : M string :=
  let* llm := get_llm nenv in
  match llm with
  | None => ret "Could not generate summary due to LLM initialization error."
  | Some llm =>
      try_except
        (let* summary :=
           call (chat_invoke llm
                   (format_prompt job_description (content candidate))) in
         log INFO ("Generated summary for " ++ source candidate ++ ".") >>
         ret summary)
        (fun e =>
           log ERROR ("Error generating summary for " ++ source candidate
                      ++ ": " ++ exn_str e) >>
           ret "Error generating summary.")
  end.

(** ** app.py *)

(** What a Streamlit call puts on the page. *)
Inductive st_event : Type :=
| st_spinner (text : string)
| st_error (body : string)
| st_warning (body : string)
| st_success (body : string)
| st_header (body : string)
| st_subheader (body : string)
| st_info (body : string)
| st_metric (label : string) (value : nat)
| st_download_button (label data file_name mime : string).

(** A row of [results_list]. *)
Record row : Type := mkRow {
  Rank : nat;
  File : string;
  Similarity_Score : string;
  AI_Summary : string
}.

(** The formatting the page relies on: [f"{x:.2f}"] for a score, and
    [pd.DataFrame(rows).to_csv(index=False).encode('utf-8')]. *)
Record Presentation : Type := mkPresentation {
  format_2f : Q -> string;
  to_csv : list row -> string
}.

(** A computation of the page: the Streamlit calls it made, in order, next
    to what it logged and how it ended. *)
Definition App (A : Type) : Type := (list st_event * M A)%type.

Definition retA {A} (a : A) : App A := ([], ret a).

Definition bindA {A B} (m : App A) (k : A -> App B) : App B :=
  match m with
  | (ev1, (l1, Ok a)) =>
      let '(ev2, (l2, r)) := k a in (ev1 ++ ev2, (l1 ++ l2, r))
  | (ev1, (l1, Raise e)) => (ev1, (l1, Raise e))
  end.

Definition try_exceptA {A} (m : App A) (h : exn -> App A) : App A :=
  match m with
  | (ev1, (l1, Raise e)) =>
      let '(ev2, (l2, r)) := h e in (ev1 ++ ev2, (l1 ++ l2, r))
  | (ev1, (l1, Ok a)) => (ev1, (l1, Ok a))
  end.

(** A call into the other modules: it puts nothing on the page. *)
Definition run {A} (m : M A) : App A := ([], m).

Definition show (ev : st_event) : App unit := ([ev], ret tt).

Notation "'let+' x := m 'in' k" := (bindA m (fun x => k))
  (at level 10, x name, m at level 100, k at level 200).
Notation "m >>+ k" := (bindA m (fun _ => k))
  (at level 100, k at level 200, right associativity).

Definition shown {A} (m : App A) : list st_event := fst m.
Definition ending {A} (m : App A) : result A := outcome (snd m).

(** The body of [for i, candidate in enumerate(ranked_candidates)], over
    the candidates still to show; [i] is the index of the first of them and
    [results_list] the rows built so far. *)
Fixpoint display_candidates (nenv : Narrator) (pres : Presentation)
    (job_description : string) (candidates : list candidate) (i : nat)
    (results_list : list row) : App (list row) :=
  match candidates with
  | [] => retA results_list
  | candidate :: rest =>
      show (st_subheader
              ("#" ++ str_of_nat (i + 1) ++ " - " ++ source candidate
               ++ " (Score: " ++ format_2f pres (score candidate) ++ ")")) >>+
      show (st_spinner
              ("Generating AI summary for " ++ source candidate ++ "...")) >>+
      let+ summary := run (generate_summary nenv candidate job_description) in
      show (st_info summary) >>+
      display_candidates nenv pres job_description rest (S i)
        (results_list ++
         [ {| Rank := i + 1;
              File := source candidate;
              Similarity_Score := format_2f pres (score candidate);
              AI_Summary := summary |} ])
  end.

(** An early [return] ends the function: each step that may return hands
    [None] to what follows it. *)
Definition process_and_display_results (env : Libraries) (nenv : Narrator)
    (pres : Presentation) (job_description resume_folder : string) : App unit :=
  show (st_spinner "Extracting text from resumes...") >>+
  let+ docs := run (get_documents_from_folder env resume_folder) in
  match docs with
  | [] =>
      show (st_error
              "No resumes found or could not extract text. Please check the folder.")
  | _ :: _ =>
      show (st_spinner "Creating vector store and embeddings...") >>+
      let+ built :=
        try_exceptA
          (let+ vector_store := run (create_vector_store env docs) in
           retA (Some vector_store))
          (fun e =>
             show (st_error ("Failed to create vector store: " ++ exn_str e)) >>+
             retA None) in
      match built with
      | None => retA tt
      | Some vector_store =>
          show (st_spinner "Ranking resumes against the job description...") >>+
          let+ ranked_candidates :=
            run (rank_resumes vector_store job_description 10) in
          match ranked_candidates with
          | [] => show (st_warning "Could not rank any candidates.")
          | _ :: _ =>
              show (st_success
                      ("Successfully ranked "
                       ++ str_of_nat (length ranked_candidates)
                       ++ " candidates!")) >>+
              show (st_header "Top Candidates") >>+
              let+ results_list :=
                display_candidates nenv pres job_description
                  ranked_candidates 0 [] in
              show (st_header "📊 Business Value & Export") >>+
              let time_saved := (length docs * 5)%nat in
              show (st_metric "Estimated Time Saved (minutes)" time_saved) >>+
              let csv := to_csv pres results_list in
              show (st_download_button "Download Results as CSV" csv
                      "ranked_resumes.csv" "text/csv")
          end
      end
  end.

(** ** Auxiliary definitions for the statements *)

(** The text [extract_text_from_file] hands back for a path. *)
Definition extracted (env : Libraries) (file_path : string) : string :=
  match outcome (extract_text_from_file env file_path) with
  | Ok s => s
  | Raise _ => ""
  end.

(** What one directory entry adds to [documents]. *)
Definition file_documents (env : Libraries) (folder_path filename : string)
    : list Document :=
  let file_path := os_path_join env folder_path filename in
  if os_path_isfile env file_path then
    if String.eqb (extracted env file_path) "" then []
    else [mkDocument (extracted env file_path) {[ "source" := filename ]}]
  else [].

(** The text [generate_summary] hands back for a candidate. *)
Definition summary_text (nenv : Narrator) (c : candidate)
    (job_description : string) : string :=
  match outcome (generate_summary nenv c job_description) with
  | Ok s => s
  | Raise _ => ""
  end.

(** The rows of the candidates shown from index [i] on. *)
Fixpoint candidate_rows (nenv : Narrator) (pres : Presentation)
    (job_description : string) (candidates : list candidate) (i : nat)
    : list row :=
  match candidates with
  | [] => []
  | c :: rest =>
      {| Rank := i + 1;
         File := source c;
         Similarity_Score := format_2f pres (score c);
         AI_Summary := summary_text nenv c job_description |}
      :: candidate_rows nenv pres job_description rest (S i)
  end.

(** ** Sample data *)

Definition chunk_a1 : Document :=
  mkDocument "Python developer" {[ "source" := "a.pdf" ]}.
Definition chunk_a2 : Document :=
  mkDocument "Django, ML" {[ "source" := "a.pdf" ]}.
Definition chunk_b : Document :=
  mkDocument "Java developer" {[ "source" := "b.docx" ]}.

(** A store holding three chunks, two of them cut from [a.pdf]. *)
Definition sample_store : FAISS :=
  mkFAISS (fun _ k =>
    Ok (take (Z.to_nat k) [(chunk_a1, 1#4); (chunk_b, 1#2); (chunk_a2, 3#2)])).

(** A store whose search raises. *)
Definition failing_store : FAISS :=
  mkFAISS (fun _ _ => Raise (Exception "index unavailable")).

(** An environment whose chunking, model loading and index construction
    end as given. *)
Definition sample_env (chunked : result (list Document))
    (model : result unit) (built : result FAISS) : Libraries :=
  {| os_listdir := fun folder =>
       if String.eqb folder "resumes"
       then Ok ["a.pdf"; "notes.txt"; "broken.pdf"; "b.docx"; "empty.docx"; "old"]
       else Raise (Exception "No such file or directory");
     os_path_join := fun folder name => (folder ++ "/" ++ name)%string;
     os_path_isfile := fun path => negb (String.eqb path "resumes/old");
     fitz_page_texts := fun path =>
       if String.eqb path "resumes/a.pdf"
       then Ok ["Python developer"; ", Django, ML"]
       else Raise (Exception "cannot open broken document");
     docx_paragraph_texts := fun path =>
       if String.eqb path "resumes/b.docx" then Ok ["Java developer"; "Spring"]
       else if String.eqb path "resumes/empty.docx" then Ok []
       else Raise (Exception "Package not found");
     embeddings_model := unit;
     split_documents := fun _ _ _ => chunked;
     HuggingFaceEmbeddings := fun _ => model;
     from_documents := fun _ _ => built |}.

(** A sample metric: the squared Euclidean distance. *)
Fixpoint squared_distance (u v : list Q) : Q :=
  match u, v with
  | x :: u', y :: v' => (x - y) * (x - y) + squared_distance u' v'
  | _, _ => 0
  end.

Definition sample_entries : list EmbeddedChunk :=
  [ mkEmbeddedChunk (mkChunk "a.pdf" 0 "Python developer" (0, 16)%Z) [1%Q; 0%Q];
    mkEmbeddedChunk (mkChunk "b.docx" 0 "Java developer" (0, 14)%Z) [0%Q; 1%Q] ].

(** A sample cutting: the whole text as one piece. *)
Definition one_piece (text : string) (chunk_size overlap : Z) : list Chunk :=
  [mkChunk "a.pdf" 0 text (0%Z, Z.of_nat (String.length text))].

(** The environment above with another content of the resume folder. *)
Definition sample_env_listing (filenames : list string)
    (chunked : result (list Document)) (built : result FAISS) : Libraries :=
  let env := sample_env chunked (Ok tt) built in
  {| os_listdir := fun _ => Ok filenames;
     os_path_join := os_path_join env;
     os_path_isfile := os_path_isfile env;
     fitz_page_texts := fitz_page_texts env;
     docx_paragraph_texts := docx_paragraph_texts env;
     embeddings_model := embeddings_model env;
     split_documents := split_documents env;
     HuggingFaceEmbeddings := HuggingFaceEmbeddings env;
     from_documents := from_documents env |}.

(** A narrator whose key and whose model's answer are as given. *)
Definition sample_narrator (key : option string) (reply : result string)
    : Narrator :=
  {| API_KEY := key;
     ChatGoogleGenerativeAI := fun _ k =>
       match k with
       | Some _ => Ok (mkChatModel (fun _ => reply))
       | None => Raise (Exception "API key required")
       end |}.

(** Stand-ins for the two formatting calls: a score as a fraction, a table
    as its file names, one per line. *)
Definition sample_presentation : Presentation :=
  {| format_2f := fun q =>
       (str_of_nat (Z.abs_nat (Qnum q)) ++ "/" ++ str_of_nat (Pos.to_nat (Qden q)))%string;
     to_csv := fun rows => join newline (map File rows) |}.

Definition has_nan (l : list Fp.candidate) : bool :=
  existsb (fun c => Fp.is_nan (Fp.score c)) l.

(** A runtime that leaves a list with a NaN key as it is, and sorts any
    other list. *)
Definition sample_runtime : Fp.Runtime.
Proof.
  refine {| Fp.list_sort_desc := fun l =>
              if has_nan l then l else stable_sort Fp.score_desc l |}.
  - assert (Hins : forall x s,
              Permutation (x :: s) (insert_sorted Fp.score_desc x s)).
    { intros x s. induction s as [|y s IH]; simpl; [reflexivity|].
      destruct (Fp.score_desc x y); [reflexivity|].
      rewrite perm_swap. now apply perm_skip. }
    intros l. destruct (has_nan l); [reflexivity|].
    induction l as [|x l IH]; simpl; [reflexivity|].
    rewrite <- Hins. now apply perm_skip.
  - intros l Hnan. replace (has_nan l) with false; [reflexivity|].
    symmetry. induction l as [|x l IH]; [reflexivity|].
    simpl. rewrite (Hnan x (list_elem_of_here _ _)). simpl.
    apply IH. intros c Hc. apply Hnan. now apply list_elem_of_further.
Defined.

(** A store with a NaN among its distances, two of its chunks cut from
    [a.pdf]. *)
Definition nan_store : Fp.FAISS :=
  Fp.mkFAISS (fun _ _ =>
    Ok [ (chunk_a1, Fp.Finite (1#2)); (chunk_b, Fp.NaN);
         (chunk_a2, Fp.Finite (1#4)) ]).

(** A store with two chunks at the same distance, written in two ways. *)
Definition tied_store : Fp.FAISS :=
  Fp.mkFAISS (fun _ _ =>
    Ok [ (chunk_b, Fp.Finite (1#2)); (chunk_a1, Fp.Finite (1#4));
         (chunk_a2, Fp.Finite (2#4)) ]).

(** * Properties *)

(** ** Sorting *)

Section StableSortFacts.
Context {A : Type} (leb : A -> A -> bool).

Lemma insert_sorted_perm (x : A) (l : list A) :
  Permutation (x :: l) (insert_sorted leb x l).
Proof.
  induction l as [|y l IH]; simpl; [reflexivity|].
  destruct (leb x y); [reflexivity|].
  rewrite perm_swap. now apply perm_skip.
Qed.

Lemma stable_sort_perm (l : list A) : Permutation l (stable_sort leb l).
Proof.
  induction l as [|x l IH]; simpl; [reflexivity|].
  rewrite <- insert_sorted_perm. now apply perm_skip.
Qed.

Lemma stable_sort_length (l : list A) :
  length (stable_sort leb l) = length l.
Proof. symmetry. apply Permutation_length, stable_sort_perm. Qed.

(** Sortedness needs the order to be total only on the entries of the
    list. *)
Lemma insert_sorted_sorted (x : A) (l : list A) :
  (forall y, y ∈ l -> leb x y = true \/ leb y x = true) ->
  Sorted (fun a b => leb a b = true) l ->
  Sorted (fun a b => leb a b = true) (insert_sorted leb x l).
Proof.
  induction l as [|y l IH]; simpl; intros Htot Hs.
  - repeat constructor.
  - destruct (leb x y) eqn:Hxy.
    + constructor; [assumption|]. now constructor.
    + assert (Hyx : leb y x = true).
      { destruct (Htot y (list_elem_of_here _ _)); congruence. }
      inversion Hs as [|? ? Hl Hhd]; subst.
      constructor.
      * apply IH; [|assumption].
        intros z Hz. apply Htot. now apply list_elem_of_further.
      * destruct l as [|z l]; simpl; [now constructor|].
        destruct (leb x z); constructor; [assumption|now inversion Hhd].
Qed.

Lemma stable_sort_sorted (l : list A) :
  (forall x y, x ∈ l -> y ∈ l -> leb x y = true \/ leb y x = true) ->
  Sorted (fun a b => leb a b = true) (stable_sort leb l).
Proof.
  induction l as [|x l IH]; simpl; intros Htot; [constructor|].
  apply insert_sorted_sorted.
  - intros y Hy. rewrite <- (stable_sort_perm l) in Hy.
    apply Htot; [apply list_elem_of_here|now apply list_elem_of_further].
  - apply IH. intros y z Hy Hz.
    apply Htot; now apply list_elem_of_further.
Qed.
End StableSortFacts.


Lemma sort_desc_perm (l : list candidate) : Permutation l (sort_desc l).
Proof. apply stable_sort_perm. Qed.

(** ** The ranker *)

Lemma collect_candidates_map (results : list (Document * Q)) :
  collect_candidates results =
  map (fun r => candidate_info (fst r) (snd r)) results.
Proof.
  unfold collect_candidates.
  enough (H : forall acc,
    fold_left (fun acc r => acc ++ [candidate_info (fst r) (snd r)]) results acc =
    acc ++ map (fun r => candidate_info (fst r) (snd r)) results)
    by apply (H []).
  induction results as [|r rs IH]; intros acc; simpl.
  - now rewrite app_nil_r.
  - rewrite IH, <- app_assoc. reflexivity.
Qed.

(** What [rank_resumes] returns when the query is not empty and the search
    succeeds. *)
Lemma rank_resumes_found (vs : FAISS) (jd : string) (k : Z)
    (results : list (Document * Q)) :
  jd <> "" ->
  similarity_search_with_score vs jd k = Ok results ->
  outcome (rank_resumes vs jd k) = Ok (sort_desc (collect_candidates results)).
Proof.
  intros Hjd Hs. unfold rank_resumes.
  apply String.eqb_neq in Hjd. rewrite Hjd, Hs. reflexivity.
Qed.

(** [rank_resumes] always returns a list: no path of it raises. *)
Lemma rank_resumes_returns (vs : FAISS) (jd : string) (k : Z) :
  exists l, outcome (rank_resumes vs jd k) = Ok l.
Proof.
  unfold rank_resumes. destruct (String.eqb jd ""); [now exists []|].
  destruct (similarity_search_with_score vs jd k); simpl; eauto.
Qed.

(** C1, as stated, fails: with two of the retrieved chunks cut from
    [a.pdf], the list [rank_resumes] returns has two entries whose source is
    [a.pdf]. *)
Lemma rank_resumes_repeats_source :
  let l := [ mkCandidate "a.pdf" (3#4) "Python developer";
             mkCandidate "b.docx" (1#2) "Java developer";
             mkCandidate "a.pdf" (-1#2) "Django, ML" ] in
  outcome (rank_resumes sample_store "Python developer" 5) = Ok l /\
  ~ NoDup (map source l).
Proof.
  split; [vm_compute; reflexivity|].
  simpl. intros H. apply NoDup_cons_1_1 in H. apply H. set_solver.
Qed.

(** C2, as stated, fails: an empty job description yields the empty list
    as a normal result, not an error. *)
Lemma rank_resumes_empty_query_returns :
  outcome (rank_resumes sample_store "" 5) = Ok [] /\
  forall e, outcome (rank_resumes sample_store "" 5) <> Raise e.
Proof. split; [reflexivity|discriminate]. Qed.

(** C2, amended: for every vector store and every [top_k], [rank_resumes]
    with an empty job description logs a warning and returns the empty list
    as a normal result; the store is not queried and nothing is raised. *)
Theorem rank_resumes_empty_query (vs : FAISS) (k : Z) :
  rank_resumes vs "" k =
  ([LogRecord WARNING "Job description is empty. Cannot rank resumes."], Ok []).
Proof. reflexivity. Qed.

(** C3, as stated, fails: when the search raises, [rank_resumes] returns
    the empty list as a normal result. *)
Lemma rank_resumes_swallows_failure :
  similarity_search_with_score failing_store "Python developer" 5
    = Raise (Exception "index unavailable") /\
  outcome (rank_resumes failing_store "Python developer" 5) = Ok [] /\
  forall e, outcome (rank_resumes failing_store "Python developer" 5) <> Raise e.
Proof. repeat split; discriminate. Qed.

(** C3, amended: when the search (which embeds the query and asks the
    index) raises inside [rank_resumes], the exception is caught and logged
    and the empty list is returned as a normal result; when chunking,
    loading the embedding model or building the index raises inside
    [create_vector_store], the exception is logged and raised again to the
    caller. *)
Theorem failure_caught_in_rank_raised_in_create :
  (forall (vs : FAISS) (jd : string) (k : Z) (e : exn),
     jd <> "" ->
     similarity_search_with_score vs jd k = Raise e ->
     rank_resumes vs jd k =
     ([LogRecord ERROR ("Error ranking resumes: " ++ exn_str e)], Ok [])) /\
  (forall (env : Libraries) (documents : list Document) (e : exn),
     split_documents env 1000 200 documents = Raise e \/
     (exists split_docs,
        split_documents env 1000 200 documents = Ok split_docs /\
        (HuggingFaceEmbeddings env "sentence-transformers/all-MiniLM-L6-v2" = Raise e \/
         exists embeddings,
           HuggingFaceEmbeddings env "sentence-transformers/all-MiniLM-L6-v2"
             = Ok embeddings /\
           from_documents env split_docs embeddings = Raise e)) ->
     create_vector_store env documents =
     ([LogRecord ERROR ("Error creating vector store: " ++ exn_str e)], Raise e)).
Proof.
  split.
  - intros vs jd k e Hjd Hs. unfold rank_resumes.
    apply String.eqb_neq in Hjd. rewrite Hjd, Hs. reflexivity.
  - intros env documents e H. unfold create_vector_store.
    destruct H as [H|(sd & Hsd & [H|(emb & Hemb & H)])].
    + rewrite H. reflexivity.
    + rewrite Hsd, H. reflexivity.
    + rewrite Hsd, Hemb. simpl. rewrite H. reflexivity.
Qed.

Lemma failure_caught_in_rank_raised_in_create_witness :
  rank_resumes failing_store "Python developer" 5 =
    ([LogRecord ERROR "Error ranking resumes: index unavailable"], Ok []) /\
  create_vector_store
    (sample_env (Ok [chunk_a1]) (Raise (Exception "model unavailable")) (Ok sample_store))
    [chunk_a1] =
    ([LogRecord ERROR "Error creating vector store: model unavailable"],
     Raise (Exception "model unavailable")).
Proof.
  split.
  - apply (proj1 failure_caught_in_rank_raised_in_create
             failing_store "Python developer" 5%Z (Exception "index unavailable")).
    + discriminate.
    + reflexivity.
  - apply (proj2 failure_caught_in_rank_raised_in_create
             (sample_env (Ok [chunk_a1]) (Raise (Exception "model unavailable"))
                (Ok sample_store))
             [chunk_a1] (Exception "model unavailable")).
    right. exists [chunk_a1]. split; [reflexivity|]. left. reflexivity.
Defined.

(** C5: for a non-empty job description and a search that succeeds, every
    (chunk, distance) pair of the search gets an entry whose score is
    [1 - distance], whatever its sign; the call returns normally, with as
    many entries as pairs. *)
Theorem rank_resumes_score (vs : FAISS) (jd : string) (k : Z)
    (results : list (Document * Q)) (doc : Document) (distance : Q) :
  jd <> "" ->
  similarity_search_with_score vs jd k = Ok results ->
  (doc, distance) ∈ results ->
  exists l,
    outcome (rank_resumes vs jd k) = Ok l /\
    length l = length results /\
    {| source := default "Unknown" (metadata doc !! "source");
       score := 1 - distance;
       content := page_content doc |} ∈ l.
Proof.
  intros Hjd Hs Hin. exists (sort_desc (collect_candidates results)).
  split; [now apply rank_resumes_found|].
  rewrite collect_candidates_map. split.
  - unfold sort_desc. now rewrite stable_sort_length, length_map.
  - rewrite <- (sort_desc_perm _).
    apply (list_elem_of_fmap_2 (fun r => candidate_info (fst r) (snd r))) in Hin.
    exact Hin.
Qed.

Lemma rank_resumes_score_witness :
  exists l,
    outcome (rank_resumes sample_store "Python developer" 5) = Ok l /\
    length l = 3%nat /\
    {| source := "a.pdf"; score := 1 - (3#2); content := "Django, ML" |} ∈ l.
Proof.
  apply (rank_resumes_score sample_store "Python developer" 5
           [(chunk_a1, 1#4); (chunk_b, 1#2); (chunk_a2, 3#2)] chunk_a2 (3#2)).
  - discriminate.
  - reflexivity.
  - set_solver.
Defined.

(** ** Extraction and document collection *)

Lemma outcome_bind {A B} (m : M A) (k : A -> M B) :
  outcome (bind m k) =
  match outcome m with
  | Ok a => outcome (k a)
  | Raise e => Raise e
  end.
Proof.
  destruct m as [l1 [a|e]]; simpl; [|reflexivity].
  now destruct (k a).
Qed.

Lemma extract_text_returns (env : Libraries) (file_path : string) :
  outcome (extract_text_from_file env file_path) = Ok (extracted env file_path).
Proof.
  unfold extracted, extract_text_from_file.
  destruct (endswith file_path ".pdf").
  - now destruct (fitz_page_texts env file_path).
  - destruct (endswith file_path ".docx"); [|reflexivity].
    now destruct (docx_paragraph_texts env file_path).
Qed.

Lemma collect_documents_outcome (env : Libraries) (folder_path : string)
    (filenames : list string) (documents : list Document) :
  outcome (collect_documents env folder_path filenames documents) =
  Ok (documents ++ flat_map (file_documents env folder_path) filenames).
Proof.
  revert documents.
  induction filenames as [|filename rest IH]; intros documents; simpl.
  - now rewrite app_nil_r.
  - unfold file_documents at 1.
    destruct (os_path_isfile env (os_path_join env folder_path filename));
      [|apply IH].
    rewrite outcome_bind, extract_text_returns.
    destruct (String.eqb (extracted env _) ""); rewrite IH; [reflexivity|].
    now rewrite <- app_assoc.
Qed.

Lemma get_documents_outcome (env : Libraries) (folder_path : string)
    (filenames : list string) :
  os_listdir env folder_path = Ok filenames ->
  outcome (get_documents_from_folder env folder_path) =
  Ok (flat_map (file_documents env folder_path) filenames).
Proof.
  intros H. unfold get_documents_from_folder.
  rewrite outcome_bind. unfold call. simpl. rewrite H.
  apply collect_documents_outcome.
Qed.

Lemma file_documents_elem (env : Libraries) (folder_path filename : string)
    (d : Document) :
  d ∈ file_documents env folder_path filename <->
  os_path_isfile env (os_path_join env folder_path filename) = true /\
  extracted env (os_path_join env folder_path filename) <> "" /\
  d = mkDocument (extracted env (os_path_join env folder_path filename))
        {[ "source" := filename ]}.
Proof.
  unfold file_documents.
  destruct (os_path_isfile env _); [|split; [intros H; inversion H|intros [? _]; discriminate]].
  destruct (String.eqb_spec (extracted env (os_path_join env folder_path filename)) "") as [E|E].
  - split; [intros H; inversion H|intros (_ & H & _); contradiction].
  - rewrite list_elem_of_singleton. split; [intros ->; auto|intros (_ & _ & ->); reflexivity].
Qed.

(** C9: [extract_text_from_file] always returns a string, never raises;
    for a path that ends neither in [.pdf] nor in [.docx], and for a path
    whose parser raises, that string is empty; [get_documents_from_folder]
    then returns exactly the documents of the directory entries that are
    files with non-empty extracted text, whatever happened with the other
    entries. *)
Theorem extraction_failures_skipped (env : Libraries) :
  (forall file_path,
     exists s, outcome (extract_text_from_file env file_path) = Ok s) /\
  (forall file_path,
     endswith file_path ".pdf" = false ->
     endswith file_path ".docx" = false ->
     outcome (extract_text_from_file env file_path) = Ok "") /\
  (forall file_path e,
     (endswith file_path ".pdf" = true /\
      fitz_page_texts env file_path = Raise e) \/
     (endswith file_path ".pdf" = false /\
      endswith file_path ".docx" = true /\
      docx_paragraph_texts env file_path = Raise e) ->
     outcome (extract_text_from_file env file_path) = Ok "") /\
  (forall folder_path filenames,
     os_listdir env folder_path = Ok filenames ->
     exists documents,
       outcome (get_documents_from_folder env folder_path) = Ok documents /\
       forall d, d ∈ documents <->
         exists filename text,
           filename ∈ filenames /\
           os_path_isfile env (os_path_join env folder_path filename) = true /\
           outcome (extract_text_from_file env
                      (os_path_join env folder_path filename)) = Ok text /\
           text <> "" /\
           d = mkDocument text {[ "source" := filename ]}).
Proof.
  repeat split.
  - intros file_path. eexists. apply extract_text_returns.
  - intros file_path Hpdf Hdocx. unfold extract_text_from_file.
    rewrite Hpdf, Hdocx. reflexivity.
  - intros file_path e [[Hpdf H]|(Hpdf & Hdocx & H)]; unfold extract_text_from_file.
    + rewrite Hpdf, H. reflexivity.
    + rewrite Hpdf, Hdocx, H. reflexivity.
  - intros folder_path filenames Hdir.
    exists (flat_map (file_documents env folder_path) filenames).
    split; [now apply get_documents_outcome|].
    intros d. rewrite list_elem_of_In, in_flat_map. split.
    + intros (filename & Hin & Hd).
      apply list_elem_of_In in Hin, Hd.
      apply file_documents_elem in Hd as (Hfile & Htext & ->).
      exists filename, (extracted env (os_path_join env folder_path filename)).
      repeat split; auto using extract_text_returns.
    + intros (filename & text & Hin & Hfile & Hout & Htext & ->).
      exists filename. rewrite <- !list_elem_of_In. split; [assumption|].
      rewrite extract_text_returns in Hout. injection Hout as <-.
      now apply file_documents_elem.
Qed.

Lemma extraction_failures_skipped_witness :
  outcome (extract_text_from_file
             (sample_env (Ok []) (Ok tt) (Ok sample_store)) "resumes/notes.txt")
    = Ok "" /\
  outcome (extract_text_from_file
             (sample_env (Ok []) (Ok tt) (Ok sample_store)) "resumes/broken.pdf")
    = Ok "" /\
  exists documents,
    outcome (get_documents_from_folder
               (sample_env (Ok []) (Ok tt) (Ok sample_store)) "resumes")
      = Ok documents /\
    forall d, d ∈ documents <->
      exists filename text,
        filename ∈ ["a.pdf"; "notes.txt"; "broken.pdf"; "b.docx"; "empty.docx"; "old"] /\
        os_path_isfile (sample_env (Ok []) (Ok tt) (Ok sample_store))
          (os_path_join (sample_env (Ok []) (Ok tt) (Ok sample_store))
             "resumes" filename) = true /\
        outcome (extract_text_from_file
                   (sample_env (Ok []) (Ok tt) (Ok sample_store))
                   (os_path_join (sample_env (Ok []) (Ok tt) (Ok sample_store))
                      "resumes" filename)) = Ok text /\
        text <> "" /\
        d = mkDocument text {[ "source" := filename ]}.
Proof.
  pose proof (extraction_failures_skipped
                (sample_env (Ok []) (Ok tt) (Ok sample_store)))
    as (_ & Hkind & Hfail & Hbatch).
  split; [|split].
  - apply Hkind; reflexivity.
  - apply (Hfail _ (Exception "cannot open broken document")).
    left. split; reflexivity.
  - apply Hbatch. reflexivity.
Defined.

(** C10: every document in the list [get_documents_from_folder] returns,
    which is the list [create_vector_store] is given, has non-empty
    [page_content]. *)
Theorem documents_have_text (env : Libraries) (folder_path : string)
    (documents : list Document) (d : Document) :
  outcome (get_documents_from_folder env folder_path) = Ok documents ->
  d ∈ documents ->
  page_content d <> "".
Proof.
  intros Hout Hd.
  destruct (os_listdir env folder_path) as [filenames|e] eqn:Hdir.
  - rewrite (get_documents_outcome _ _ _ Hdir) in Hout. injection Hout as <-.
    apply list_elem_of_In, in_flat_map in Hd as (filename & _ & Hd).
    apply list_elem_of_In, file_documents_elem in Hd as (_ & Htext & ->).
    exact Htext.
  - unfold get_documents_from_folder in Hout.
    rewrite outcome_bind in Hout. unfold call in Hout. simpl in Hout.
    rewrite Hdir in Hout. discriminate.
Qed.

Lemma documents_have_text_witness :
  page_content
    (mkDocument "Python developer, Django, ML" {[ "source" := "a.pdf" ]}) <> "".
Proof.
  apply (documents_have_text
           (sample_env (Ok []) (Ok tt) (Ok sample_store)) "resumes"
           [ mkDocument "Python developer, Django, ML" {[ "source" := "a.pdf" ]};
             mkDocument ("Java developer" ++ newline ++ "Spring")
               {[ "source" := "b.docx" ]} ]).
  - vm_compute. reflexivity.
  - set_solver.
Defined.

(** ** The delegated components *)

(** Blank input is not cut at all. *)
Lemma split_blank (windows : string -> Z -> Z -> list Chunk)
    (text : string) (chunk_size overlap : Z) :
  (overlap < chunk_size)%Z ->
  is_blank text = true ->
  split windows text chunk_size overlap = inr [].
Proof.
  intros H Hb. unfold split. apply Z.leb_gt in H. now rewrite H, Hb.
Qed.

Lemma build_entries (es : list EmbeddedChunk) (idx : Index) :
  build es = inr idx -> entries idx = es.
Proof. destruct es; [discriminate|]. now intros [= <-]. Qed.

(** C6: for an index built from [n] entries and [k > n], a query with [k]
    returns exactly [n] entries; [query] is a total function, it has no
    error outcome. *)
Theorem query_clamps (distance : list Q -> list Q -> Q)
    (es : list EmbeddedChunk) (idx : Index) (v : list Q) (k : Z) :
  build es = inr idx ->
  (Z.of_nat (length es) < k)%Z ->
  length (query distance idx v k) = length es.
Proof.
  intros Hb Hk. apply build_entries in Hb. unfold query. rewrite Hb.
  apply Z.ltb_lt in Hk. rewrite Hk, Nat2Z.id.
  rewrite length_take, stable_sort_length, length_map. lia.
Qed.

Lemma query_clamps_witness :
  length (query squared_distance (mkIndex sample_entries) [1%Q; 0%Q] 5)
  = length sample_entries.
Proof.
  apply (query_clamps squared_distance sample_entries (mkIndex sample_entries)
           [1%Q; 0%Q] 5%Z).
  - reflexivity.
  - simpl. lia.
Defined.

(** C7: [split] fails with [ConfigurationError] whenever
    [overlap >= chunk_size], and returns chunks whenever
    [overlap < chunk_size]. *)
Theorem split_requires_smaller_overlap (windows : string -> Z -> Z -> list Chunk)
    (text : string) (chunk_size overlap : Z) :
  ((chunk_size <= overlap)%Z ->
   split windows text chunk_size overlap = inl ConfigurationError) /\
  ((overlap < chunk_size)%Z ->
   exists chunks, split windows text chunk_size overlap = inr chunks).
Proof.
  unfold split. split; intros H.
  - apply Z.leb_le in H. now rewrite H.
  - apply Z.leb_gt in H. rewrite H. destruct (is_blank text); eauto.
Qed.

Lemma split_requires_smaller_overlap_witness :
  split one_piece "Python developer" 200 200 = inl ConfigurationError /\
  exists chunks, split one_piece "Python developer" 1000 200 = inr chunks.
Proof.
  split.
  - apply (proj1 (split_requires_smaller_overlap one_piece "Python developer" 200 200)).
    lia.
  - apply (proj2 (split_requires_smaller_overlap one_piece "Python developer" 1000 200)).
    lia.
Defined.

(** * Further properties *)

(** ** Stability of the sort *)

Section StableSortStability.
Context {A : Type} (leb : A -> A -> bool) (same : A -> bool).

(** Entries picked by [same] have equal keys: each may precede the other. *)
Hypothesis same_leb : forall x y, same x = true -> same y = true -> leb x y = true.

Lemma insert_sorted_filter (x : A) (l : list A) :
  List.filter same (insert_sorted leb x l) = List.filter same (x :: l).
Proof.
  induction l as [|y l IH]; [reflexivity|].
  cbn [insert_sorted]. destruct (leb x y) eqn:Hxy; [reflexivity|].
  cbn [List.filter] in *. rewrite IH.
  destruct (same x) eqn:Hx, (same y) eqn:Hy; try reflexivity.
  rewrite (same_leb x y Hx Hy) in Hxy. discriminate.
Qed.

Lemma stable_sort_filter (l : list A) :
  List.filter same (stable_sort leb l) = List.filter same l.
Proof.
  induction l as [|x l IH]; [reflexivity|].
  cbn [stable_sort foldr]. fold (stable_sort leb l).
  rewrite insert_sorted_filter. cbn [List.filter]. now rewrite IH.
Qed.
End StableSortStability.

(** ** More on the ranker *)

Lemma rank_resumes_outcome (vs : FAISS) (jd : string) (k : Z) :
  outcome (rank_resumes vs jd k) =
  if String.eqb jd "" then Ok []
  else match similarity_search_with_score vs jd k with
       | Ok results => Ok (sort_desc (collect_candidates results))
       | Raise _ => Ok []
       end.
Proof.
  unfold rank_resumes. destruct (String.eqb jd ""); [reflexivity|].
  now destruct (similarity_search_with_score vs jd k).
Qed.

Lemma sort_desc_nil (l : list candidate) : sort_desc l = [] -> l = [].
Proof.
  intros H. apply (f_equal length) in H.
  unfold sort_desc in H. rewrite stable_sort_length in H.
  now destruct l.
Qed.

(** X1: [rank_resumes] never raises, and every call logs exactly one
    record. *)
Theorem rank_resumes_never_raises (vs : FAISS) (jd : string) (k : Z) :
  exists lv msg l, rank_resumes vs jd k = ([LogRecord lv msg], Ok l).
Proof.
  unfold rank_resumes. destruct (String.eqb jd ""); [repeat eexists|].
  destruct (similarity_search_with_score vs jd k); repeat eexists.
Qed.

(** X2: [rank_resumes] returns the empty list in exactly three cases: the
    job description is empty, the search raised, or the search found
    nothing. *)
Theorem rank_resumes_empty_iff (vs : FAISS) (jd : string) (k : Z) :
  outcome (rank_resumes vs jd k) = Ok [] <->
  jd = "" \/
  (exists e, similarity_search_with_score vs jd k = Raise e) \/
  similarity_search_with_score vs jd k = Ok [].
Proof.
  rewrite rank_resumes_outcome.
  destruct (String.eqb_spec jd "") as [->|Hjd]; [tauto|].
  destruct (similarity_search_with_score vs jd k) as [results|e].
  - split.
    + intros [= H]. apply sort_desc_nil in H.
      rewrite collect_candidates_map in H. apply map_eq_nil in H.
      subst. auto.
    + intros [?|[[e ?]|[= ->]]]; [contradiction|discriminate|reflexivity].
  - split; eauto.
Qed.

Lemma rank_resumes_empty_iff_witness :
  outcome (rank_resumes failing_store "Python developer" 5) = Ok [].
Proof.
  apply (proj2 (rank_resumes_empty_iff failing_store "Python developer" 5%Z)).
  right. left. exists (Exception "index unavailable"). reflexivity.
Defined.

(** X3: every entry of a list [rank_resumes] returns was made from a
    (chunk, distance) pair of a successful search: its content is the
    chunk's text, its score [1 - distance], and its source the chunk's
    [source] metadata, or ["Unknown"] when the chunk has none. *)
Theorem rank_resumes_entries_retrieved (vs : FAISS) (jd : string) (k : Z)
    (l : list candidate) (c : candidate) :
  outcome (rank_resumes vs jd k) = Ok l ->
  c ∈ l ->
  exists results doc (distance : Q),
    similarity_search_with_score vs jd k = Ok results /\
    (doc, distance) ∈ results /\
    content c = page_content doc /\
    score c = (1 - distance)%Q /\
    source c = match metadata doc !! "source" with
               | Some s => s
               | None => "Unknown"
               end.
Proof.
  rewrite rank_resumes_outcome. intros Hl Hc.
  destruct (String.eqb jd ""); [injection Hl as <-; inversion Hc|].
  destruct (similarity_search_with_score vs jd k) as [results|e];
    [|injection Hl as <-; inversion Hc].
  injection Hl as <-.
  rewrite <- (sort_desc_perm _), collect_candidates_map in Hc.
  apply list_elem_of_fmap in Hc as ([doc d] & -> & Hin).
  exists results, doc, d.
  split; [reflexivity|]. split; [assumption|].
  split; [reflexivity|]. split; [reflexivity|].
  simpl. now destruct (metadata doc !! "source").
Qed.

Lemma rank_resumes_entries_retrieved_witness :
  exists results doc (distance : Q),
    similarity_search_with_score sample_store "Python developer" 5 = Ok results /\
    (doc, distance) ∈ results /\
    content (mkCandidate "a.pdf" (-1#2) "Django, ML") = page_content doc /\
    score (mkCandidate "a.pdf" (-1#2) "Django, ML") = (1 - distance)%Q /\
    source (mkCandidate "a.pdf" (-1#2) "Django, ML") =
      match metadata doc !! "source" with
      | Some s => s
      | None => "Unknown"
      end.
Proof.
  apply (rank_resumes_entries_retrieved sample_store "Python developer" 5
           [ mkCandidate "a.pdf" (3#4) "Python developer";
             mkCandidate "b.docx" (1#2) "Java developer";
             mkCandidate "a.pdf" (-1#2) "Django, ML" ]).
  - vm_compute. reflexivity.
  - set_solver.
Defined.

(** ** More on extraction and document collection *)

Lemma file_documents_cases (env : Libraries) (folder_path filename : string) :
  file_documents env folder_path filename = [] \/
  exists text,
    file_documents env folder_path filename =
    [mkDocument text {[ "source" := filename ]}].
Proof.
  unfold file_documents.
  destruct (os_path_isfile env _); [|now left].
  destruct (String.eqb _ ""); [now left|right; eauto].
Qed.

(** X6: the documents follow the directory listing.  When the folder can
    be listed, the metadata of the returned documents are, in order, the
    [{"source": filename}] dictionaries of some of the listed names, each
    listed name giving at most one document. *)
Theorem documents_follow_listing (env : Libraries) (folder_path : string)
    (filenames : list string) :
  os_listdir env folder_path = Ok filenames ->
  exists documents,
    outcome (get_documents_from_folder env folder_path) = Ok documents /\
    sublist (map metadata documents)
      (map (fun filename => ({[ "source" := filename ]} : gmap string string))
         filenames).
Proof.
  intros Hdir. exists (flat_map (file_documents env folder_path) filenames).
  split; [now apply get_documents_outcome|].
  clear Hdir. induction filenames as [|filename rest IH]; [constructor|].
  cbn [flat_map map].
  destruct (file_documents_cases env folder_path filename) as [->|[text ->]].
  - now apply sublist_cons.
  - now apply sublist_skip.
Qed.

Lemma documents_follow_listing_witness :
  exists documents,
    outcome (get_documents_from_folder
               (sample_env (Ok []) (Ok tt) (Ok sample_store)) "resumes")
      = Ok documents /\
    sublist (map metadata documents)
      (map (fun filename => ({[ "source" := filename ]} : gmap string string))
         ["a.pdf"; "notes.txt"; "broken.pdf"; "b.docx"; "empty.docx"; "old"]).
Proof.
  apply (documents_follow_listing
           (sample_env (Ok []) (Ok tt) (Ok sample_store)) "resumes").
  reflexivity.
Defined.

Lemma get_documents_listing_raises (env : Libraries) (folder_path : string)
    (e : exn) :
  os_listdir env folder_path = Raise e ->
  outcome (get_documents_from_folder env folder_path) = Raise e.
Proof.
  intros Hdir. unfold get_documents_from_folder. rewrite outcome_bind.
  unfold call. simpl. now rewrite Hdir.
Qed.

(** X7: [get_documents_from_folder] raises exactly when [os.listdir]
    raises, and then with the same exception; nothing that happens to a
    single file makes it raise. *)
Theorem get_documents_raises_iff (env : Libraries) (folder_path : string)
    (e : exn) :
  outcome (get_documents_from_folder env folder_path) = Raise e <->
  os_listdir env folder_path = Raise e.
Proof.
  destruct (os_listdir env folder_path) as [filenames|e'] eqn:Hdir.
  - rewrite (get_documents_outcome _ _ _ Hdir). split; discriminate.
  - rewrite (get_documents_listing_raises _ _ _ Hdir).
    split; intros [= ->]; reflexivity.
Qed.

Lemma get_documents_raises_iff_witness :
  outcome (get_documents_from_folder
             (sample_env (Ok []) (Ok tt) (Ok sample_store)) "missing")
  = Raise (Exception "No such file or directory").
Proof.
  apply (proj2 (get_documents_raises_iff
                  (sample_env (Ok []) (Ok tt) (Ok sample_store)) "missing"
                  (Exception "No such file or directory"))).
  reflexivity.
Defined.

Lemma append_empty (a b : string) : (a ++ b)%string = "" <-> a = "" /\ b = "".
Proof.
  destruct a; simpl; [|split; [discriminate|intros [? _]; discriminate]].
  split; [auto|now intros [_ ->]].
Qed.

Lemma join_empty_separator (parts : list string) :
  join "" parts = "" <-> forall part, part ∈ parts -> part = "".
Proof.
  unfold join. induction parts as [|x parts IH].
  - simpl. split; [intros _ part H; inversion H|reflexivity].
  - destruct parts as [|y parts].
    + simpl. split.
      * intros -> part H. now apply list_elem_of_singleton in H.
      * intros H. apply H, list_elem_of_here.
    + change (String.concat "" (x :: y :: parts))
        with (x ++ "" ++ String.concat "" (y :: parts))%string.
      simpl String.append at 2. rewrite append_empty, IH. split.
      * intros [-> H] part Hin. apply elem_of_cons in Hin as [->|Hin]; auto.
      * intros H. split; [apply H, list_elem_of_here|].
        intros part Hin. apply H. now apply list_elem_of_further.
Qed.

Lemma join_newline_empty (parts : list string) :
  join newline parts = "" <-> parts = [] \/ parts = [""].
Proof.
  unfold join. destruct parts as [|x [|y parts]].
  - simpl. tauto.
  - simpl. split; [intros ->; auto|intros [?|[= ->]]; [discriminate|reflexivity]].
  - change (String.concat newline (x :: y :: parts))
      with (x ++ newline ++ String.concat newline (y :: parts))%string.
    rewrite append_empty. split.
    + intros [_ H]. discriminate.
    + intros [?|?]; discriminate.
Qed.

(** X8: a PDF yields the empty text, and so no document, exactly when
    every one of its pages has empty text (in particular when it has no
    page). *)
Theorem pdf_text_empty_iff (env : Libraries) (file_path : string)
    (pages : list string) :
  endswith file_path ".pdf" = true ->
  fitz_page_texts env file_path = Ok pages ->
  (outcome (extract_text_from_file env file_path) = Ok "" <->
   forall page, page ∈ pages -> page = "").
Proof.
  intros Hpdf Hpages. unfold extract_text_from_file.
  rewrite Hpdf, Hpages. simpl. rewrite <- join_empty_separator.
  split; [now intros [= ->]|now intros ->].
Qed.

Lemma pdf_text_empty_iff_witness :
  outcome (extract_text_from_file
             (sample_env (Ok []) (Ok tt) (Ok sample_store)) "resumes/a.pdf")
    = Ok "" <->
  forall page, page ∈ ["Python developer"; ", Django, ML"] -> page = "".
Proof.
  apply (pdf_text_empty_iff
           (sample_env (Ok []) (Ok tt) (Ok sample_store)) "resumes/a.pdf").
  - reflexivity.
  - reflexivity.
Defined.

(** X9: a DOCX yields the empty text, and so no document, exactly when it
    has no paragraph or a single empty paragraph; with two or more
    paragraphs the text holds a newline, also when all of them are
    empty. *)
Theorem docx_text_empty_iff (env : Libraries) (file_path : string)
    (paragraphs : list string) :
  endswith file_path ".pdf" = false ->
  endswith file_path ".docx" = true ->
  docx_paragraph_texts env file_path = Ok paragraphs ->
  (outcome (extract_text_from_file env file_path) = Ok "" <->
   paragraphs = [] \/ paragraphs = [""]).
Proof.
  intros Hpdf Hdocx Hpars. unfold extract_text_from_file.
  rewrite Hpdf, Hdocx, Hpars. simpl. rewrite <- join_newline_empty.
  split; [now intros [= ->]|now intros ->].
Qed.

Lemma docx_text_empty_iff_witness :
  outcome (extract_text_from_file
             (sample_env (Ok []) (Ok tt) (Ok sample_store)) "resumes/empty.docx")
    = Ok "" <->
  ([] : list string) = [] \/ ([] : list string) = [""].
Proof.
  apply (docx_text_empty_iff
           (sample_env (Ok []) (Ok tt) (Ok sample_store)) "resumes/empty.docx").
  - reflexivity.
  - reflexivity.
  - reflexivity.
Defined.

(** X10: [create_vector_store] returns a store exactly when chunking (with
    chunk size 1000 and overlap 200), loading the embedding model and
    building the index all succeed, and the store is then the one built
    from the chunked documents. *)
Theorem create_vector_store_returns_iff (env : Libraries)
    (documents : list Document) (vector_store : FAISS) :
  outcome (create_vector_store env documents) = Ok vector_store <->
  exists split_docs embeddings,
    split_documents env 1000 200 documents = Ok split_docs /\
    HuggingFaceEmbeddings env "sentence-transformers/all-MiniLM-L6-v2"
      = Ok embeddings /\
    from_documents env split_docs embeddings = Ok vector_store.
Proof.
  unfold create_vector_store.
  destruct (split_documents env 1000 200 documents) as [sd|e]; simpl.
  - destruct (HuggingFaceEmbeddings env _) as [emb|e]; simpl.
    + destruct (from_documents env sd emb) as [vs|e] eqn:Hb; simpl.
      * split.
        -- intros [= <-]. exists sd, emb. auto.
        -- intros (sd' & emb' & [= <-] & [= <-] & H).
           rewrite Hb in H. exact H.
      * split; [discriminate|].
        intros (sd' & emb' & [= <-] & [= <-] & H).
        rewrite Hb in H. discriminate.
    + split; [discriminate|intros (? & ? & _ & ? & _); discriminate].
  - split; [discriminate|intros (? & ? & ? & _); discriminate].
Qed.

Lemma create_vector_store_returns_iff_witness :
  outcome (create_vector_store
             (sample_env (Ok [chunk_a1; chunk_a2]) (Ok tt) (Ok sample_store))
             [chunk_a1])
  = Ok sample_store.
Proof.
  apply (proj2 (create_vector_store_returns_iff
                  (sample_env (Ok [chunk_a1; chunk_a2]) (Ok tt) (Ok sample_store))
                  [chunk_a1] sample_store)).
  exists [chunk_a1; chunk_a2], tt. repeat split.
Defined.

(** ** The narrator *)

Lemma generate_summary_returns (nenv : Narrator) (c : candidate) (jd : string) :
  outcome (generate_summary nenv c jd) = Ok (summary_text nenv c jd).
Proof.
  unfold summary_text, generate_summary, get_llm.
  destruct (ChatGoogleGenerativeAI nenv "gemini-pro" (API_KEY nenv))
    as [llm|e]; simpl; [|reflexivity].
  now destruct (chat_invoke llm (format_prompt jd (content c))).
Qed.

(** X11: [generate_summary] never raises.  It returns the first fixed
    sentence when the chat model cannot be constructed, the second when the
    model raises on the prompt, and otherwise the model's answer to the
    prompt built from the job description and the candidate's content. *)
Theorem generate_summary_never_raises (nenv : Narrator) (c : candidate)
    (jd : string) :
  exists s,
    outcome (generate_summary nenv c jd) = Ok s /\
    ((exists e,
        ChatGoogleGenerativeAI nenv "gemini-pro" (API_KEY nenv) = Raise e /\
        s = "Could not generate summary due to LLM initialization error.") \/
     (exists llm e,
        ChatGoogleGenerativeAI nenv "gemini-pro" (API_KEY nenv) = Ok llm /\
        chat_invoke llm (format_prompt jd (content c)) = Raise e /\
        s = "Error generating summary.") \/
     (exists llm,
        ChatGoogleGenerativeAI nenv "gemini-pro" (API_KEY nenv) = Ok llm /\
        chat_invoke llm (format_prompt jd (content c)) = Ok s)).
Proof.
  unfold generate_summary, get_llm.
  destruct (ChatGoogleGenerativeAI nenv "gemini-pro" (API_KEY nenv))
    as [llm|e]; simpl.
  - destruct (chat_invoke llm (format_prompt jd (content c))) as [s|e] eqn:Hinv;
      simpl.
    + exists s. split; [reflexivity|]. right. right. eauto.
    + eexists. split; [reflexivity|]. right. left. eauto.
  - eexists. split; [reflexivity|]. left. eauto.
Qed.

(** ** The page *)

Lemma ending_bindA {A B} (m : App A) (k : A -> App B) :
  ending (bindA m k) =
  match ending m with
  | Ok a => ending (k a)
  | Raise e => Raise e
  end.
Proof.
  destruct m as [ev1 [l1 [a|e]]]; simpl; [|reflexivity].
  now destruct (k a) as [ev2 [l2 r]].
Qed.

Lemma shown_bindA {A B} (m : App A) (k : A -> App B) :
  shown (bindA m k) =
  shown m ++ match ending m with
             | Ok a => shown (k a)
             | Raise _ => []
             end.
Proof.
  destruct m as [ev1 [l1 [a|e]]]; simpl; [|now rewrite app_nil_r].
  now destruct (k a) as [ev2 [l2 r]].
Qed.

Lemma ending_try_exceptA {A} (m : App A) (h : exn -> App A) :
  ending (try_exceptA m h) =
  match ending m with
  | Ok a => Ok a
  | Raise e => ending (h e)
  end.
Proof.
  destruct m as [ev1 [l1 [a|e]]]; simpl; [reflexivity|].
  now destruct (h e) as [ev2 [l2 r]].
Qed.

Lemma shown_try_exceptA {A} (m : App A) (h : exn -> App A) :
  shown (try_exceptA m h) =
  shown m ++ match ending m with
             | Ok _ => []
             | Raise e => shown (h e)
             end.
Proof.
  destruct m as [ev1 [l1 [a|e]]]; simpl; [now rewrite app_nil_r|].
  now destruct (h e) as [ev2 [l2 r]].
Qed.

Lemma ending_run {A} (m : M A) : ending (run m) = outcome m.
Proof. reflexivity. Qed.

Lemma shown_run {A} (m : M A) : shown (run m) = [].
Proof. reflexivity. Qed.

Lemma display_candidates_ending (nenv : Narrator) (pres : Presentation)
    (jd : string) (candidates : list candidate) (i : nat) (acc : list row) :
  ending (display_candidates nenv pres jd candidates i acc) =
  Ok (acc ++ candidate_rows nenv pres jd candidates i).
Proof.
  revert i acc. induction candidates as [|c rest IH]; intros i acc.
  - simpl. now rewrite app_nil_r.
  - cbn [display_candidates candidate_rows].
    rewrite !ending_bindA. cbn [show ending snd outcome ret].
    rewrite ending_run, generate_summary_returns.
    rewrite ending_bindA. cbn [show ending snd outcome ret].
    rewrite IH, <- app_assoc. reflexivity.
Qed.

Lemma candidate_rows_length (nenv : Narrator) (pres : Presentation)
    (jd : string) (candidates : list candidate) (i : nat) :
  length (candidate_rows nenv pres jd candidates i) = length candidates.
Proof.
  revert i. induction candidates as [|c rest IH]; intros i; simpl; auto.
Qed.

Lemma candidate_rows_lookup (nenv : Narrator) (pres : Presentation)
    (jd : string) (candidates : list candidate) (i j : nat) (c : candidate) :
  candidates !! j = Some c ->
  candidate_rows nenv pres jd candidates i !! j =
  Some {| Rank := i + j + 1;
          File := source c;
          Similarity_Score := format_2f pres (score c);
          AI_Summary := summary_text nenv c jd |}.
Proof.
  revert i j. induction candidates as [|c' rest IH]; intros i j; [discriminate|].
  destruct j as [|j]; simpl.
  - intros [= ->]. now rewrite Nat.add_0_r.
  - intros H. rewrite (IH (S i) j H). do 3 f_equal. lia.
Qed.

Lemma ending_show (ev : st_event) : ending (show ev) = Ok tt.
Proof. reflexivity. Qed.

Lemma shown_show (ev : st_event) : shown (show ev) = [ev].
Proof. reflexivity. Qed.

Lemma process_ending (env : Libraries) (nenv : Narrator) (pres : Presentation)
    (jd folder : string) :
  ending (process_and_display_results env nenv pres jd folder) =
  match os_listdir env folder with
  | Ok _ => Ok tt
  | Raise e => Raise e
  end.
Proof.
  unfold process_and_display_results.
  rewrite ending_bindA, ending_show, ending_bindA, ending_run.
  destruct (os_listdir env folder) as [filenames|e] eqn:Hdir.
  - rewrite (get_documents_outcome _ _ _ Hdir).
    destruct (flat_map _ filenames) as [|d docs]; [reflexivity|].
    rewrite ending_bindA, ending_show, ending_bindA, ending_try_exceptA,
      ending_bindA, ending_run.
    destruct (outcome (create_vector_store env (d :: docs))) as [vs|e];
      [|reflexivity].
    cbn [retA ending snd outcome ret].
    rewrite ending_bindA, ending_show, ending_bindA, ending_run.
    destruct (rank_resumes_returns vs jd 10) as [l ->].
    destruct l as [|c l]; [reflexivity|].
    rewrite !ending_bindA, !ending_show, display_candidates_ending.
    rewrite !ending_bindA, !ending_show. reflexivity.
  - rewrite (get_documents_listing_raises _ _ _ Hdir). reflexivity.
Qed.

(** X12: the only exception that leaves [process_and_display_results] is a
    failure to list the resume folder: it raises exactly when [os.listdir]
    raises, with the same exception; a failure of extraction, of the index
    construction, of the search or of the narration never does. *)
Theorem page_raises_iff (env : Libraries) (nenv : Narrator)
    (pres : Presentation) (jd folder : string) (e : exn) :
  ending (process_and_display_results env nenv pres jd folder) = Raise e <->
  os_listdir env folder = Raise e.
Proof.
  rewrite process_ending.
  destruct (os_listdir env folder); split; try discriminate;
    intros [= ->]; reflexivity.
Qed.

Lemma page_raises_iff_witness :
  ending (process_and_display_results
            (sample_env (Ok []) (Ok tt) (Ok sample_store))
            (sample_narrator None (Ok "Strong match."))
            sample_presentation "Python developer" "missing")
  = Raise (Exception "No such file or directory").
Proof.
  apply (proj2 (page_raises_iff
                  (sample_env (Ok []) (Ok tt) (Ok sample_store))
                  (sample_narrator None (Ok "Strong match."))
                  sample_presentation "Python developer" "missing"
                  (Exception "No such file or directory"))).
  reflexivity.
Defined.

Lemma file_documents_nil (env : Libraries) (folder_path filename : string) :
  os_path_isfile env (os_path_join env folder_path filename) = false \/
  outcome (extract_text_from_file env (os_path_join env folder_path filename))
    = Ok "" ->
  file_documents env folder_path filename = [].
Proof.
  unfold file_documents. intros [->|H]; [reflexivity|].
  rewrite extract_text_returns in H. injection H as ->.
  now destruct (os_path_isfile env _).
Qed.

(** X13: when no entry of the folder is a file with extractable text, the
    page shows the "No resumes found" error after the first spinner and
    stops there: no vector store is built and nothing is ranked. *)
Theorem page_no_usable_resume (env : Libraries) (nenv : Narrator)
    (pres : Presentation) (jd folder : string) (filenames : list string) :
  os_listdir env folder = Ok filenames ->
  (forall filename, filename ∈ filenames ->
     os_path_isfile env (os_path_join env folder filename) = false \/
     outcome (extract_text_from_file env (os_path_join env folder filename))
       = Ok "") ->
  shown (process_and_display_results env nenv pres jd folder) =
  [ st_spinner "Extracting text from resumes...";
    st_error "No resumes found or could not extract text. Please check the folder." ]
  /\ ending (process_and_display_results env nenv pres jd folder) = Ok tt.
Proof.
  intros Hdir Hall. split; [|now rewrite process_ending, Hdir].
  unfold process_and_display_results.
  rewrite shown_bindA, shown_show, ending_show, shown_bindA, shown_run, ending_run.
  rewrite (get_documents_outcome _ _ _ Hdir).
  replace (flat_map (file_documents env folder) filenames) with (@nil Document);
    [reflexivity|].
  clear Hdir. induction filenames as [|filename rest IH]; [reflexivity|].
  simpl. rewrite file_documents_nil by (apply Hall; left).
  simpl. apply IH. intros f Hf. apply Hall. now right.
Qed.

Lemma page_no_usable_resume_witness :
  shown (process_and_display_results
           (sample_env_listing ["notes.txt"; "broken.pdf"; "old"]
              (Ok []) (Ok sample_store))
           (sample_narrator None (Ok "Strong match."))
           sample_presentation "Python developer" "resumes") =
  [ st_spinner "Extracting text from resumes...";
    st_error "No resumes found or could not extract text. Please check the folder." ]
  /\ ending (process_and_display_results
               (sample_env_listing ["notes.txt"; "broken.pdf"; "old"]
                  (Ok []) (Ok sample_store))
               (sample_narrator None (Ok "Strong match."))
               sample_presentation "Python developer" "resumes") = Ok tt.
Proof.
  apply (page_no_usable_resume
           (sample_env_listing ["notes.txt"; "broken.pdf"; "old"]
              (Ok []) (Ok sample_store))
           (sample_narrator None (Ok "Strong match."))
           sample_presentation "Python developer" "resumes"
           ["notes.txt"; "broken.pdf"; "old"]).
  - reflexivity.
  - intros filename H.
    apply elem_of_cons in H as [->|H]; [right; reflexivity|].
    apply elem_of_cons in H as [->|H]; [right; reflexivity|].
    apply elem_of_cons in H as [->|H]; [left; reflexivity|].
    inversion H.
Defined.

(** X14: when documents were found and [create_vector_store] raises, the
    page shows the exception as "Failed to create vector store: ..." after
    the second spinner and ends normally; nothing is ranked. *)
Theorem page_store_failure (env : Libraries) (nenv : Narrator)
    (pres : Presentation) (jd folder : string) (docs : list Document)
    (e : exn) :
  outcome (get_documents_from_folder env folder) = Ok docs ->
  docs <> [] ->
  outcome (create_vector_store env docs) = Raise e ->
  shown (process_and_display_results env nenv pres jd folder) =
  [ st_spinner "Extracting text from resumes...";
    st_spinner "Creating vector store and embeddings...";
    st_error ("Failed to create vector store: " ++ exn_str e) ]
  /\ ending (process_and_display_results env nenv pres jd folder) = Ok tt.
Proof.
  intros Hdocs Hne Hstore. unfold process_and_display_results. split.
  - rewrite shown_bindA, shown_show, ending_show, shown_bindA, shown_run,
      ending_run, Hdocs.
    destruct docs as [|d docs]; [contradiction|].
    rewrite shown_bindA, shown_show, ending_show, shown_bindA,
      shown_try_exceptA, ending_try_exceptA, shown_bindA, ending_bindA,
      shown_run, ending_run, Hstore.
    reflexivity.
  - rewrite ending_bindA, ending_show, ending_bindA, ending_run, Hdocs.
    destruct docs as [|d docs]; [contradiction|].
    rewrite ending_bindA, ending_show, ending_bindA, ending_try_exceptA,
      ending_bindA, ending_run, Hstore.
    reflexivity.
Qed.

Lemma page_store_failure_witness :
  shown (process_and_display_results
           (sample_env (Ok []) (Raise (Exception "model unavailable"))
              (Ok sample_store))
           (sample_narrator None (Ok "Strong match."))
           sample_presentation "Python developer" "resumes") =
  [ st_spinner "Extracting text from resumes...";
    st_spinner "Creating vector store and embeddings...";
    st_error "Failed to create vector store: model unavailable" ]
  /\ ending (process_and_display_results
               (sample_env (Ok []) (Raise (Exception "model unavailable"))
                  (Ok sample_store))
               (sample_narrator None (Ok "Strong match."))
               sample_presentation "Python developer" "resumes") = Ok tt.
Proof.
  apply (page_store_failure
           (sample_env (Ok []) (Raise (Exception "model unavailable"))
              (Ok sample_store))
           (sample_narrator None (Ok "Strong match."))
           sample_presentation "Python developer" "resumes"
           [ mkDocument "Python developer, Django, ML" {[ "source" := "a.pdf" ]};
             mkDocument ("Java developer" ++ newline ++ "Spring")
               {[ "source" := "b.docx" ]} ]
           (Exception "model unavailable")).
  - vm_compute. reflexivity.
  - discriminate.
  - reflexivity.
Defined.

(** X15: a failed search looks like a search without matches.  When the
    store was built and the job description is empty, or the search raises,
    or the search finds nothing, the page shows the same warning "Could not
    rank any candidates." after the third spinner, and ends normally. *)
Theorem page_search_failure_as_no_match (env : Libraries) (nenv : Narrator)
    (pres : Presentation) (jd folder : string) (docs : list Document)
    (vs : FAISS) :
  outcome (get_documents_from_folder env folder) = Ok docs ->
  docs <> [] ->
  outcome (create_vector_store env docs) = Ok vs ->
  jd = "" \/
  (exists e, similarity_search_with_score vs jd 10 = Raise e) \/
  similarity_search_with_score vs jd 10 = Ok [] ->
  shown (process_and_display_results env nenv pres jd folder) =
  [ st_spinner "Extracting text from resumes...";
    st_spinner "Creating vector store and embeddings...";
    st_spinner "Ranking resumes against the job description...";
    st_warning "Could not rank any candidates." ]
  /\ ending (process_and_display_results env nenv pres jd folder) = Ok tt.
Proof.
  intros Hdocs Hne Hstore Hcase.
  assert (Hrank : outcome (rank_resumes vs jd 10) = Ok []).
  { rewrite rank_resumes_outcome.
    destruct Hcase as [Hjd | [[e Hs] | Hs]].
    - now rewrite Hjd.
    - rewrite Hs. now destruct (String.eqb jd "").
    - rewrite Hs. now destruct (String.eqb jd ""). }
  unfold process_and_display_results. split.
  - rewrite shown_bindA, shown_show, ending_show, shown_bindA, shown_run,
      ending_run, Hdocs.
    destruct docs as [|d docs]; [contradiction|].
    rewrite shown_bindA, shown_show, ending_show, shown_bindA,
      shown_try_exceptA, ending_try_exceptA, shown_bindA, ending_bindA,
      shown_run, ending_run, Hstore.
    cbn [retA shown ending fst snd outcome ret app].
    rewrite shown_bindA, shown_show, ending_show, shown_bindA, shown_run,
      ending_run, Hrank.
    reflexivity.
  - rewrite ending_bindA, ending_show, ending_bindA, ending_run, Hdocs.
    destruct docs as [|d docs]; [contradiction|].
    rewrite ending_bindA, ending_show, ending_bindA, ending_try_exceptA,
      ending_bindA, ending_run, Hstore.
    cbn [retA ending snd outcome ret].
    rewrite ending_bindA, ending_show, ending_bindA, ending_run, Hrank.
    reflexivity.
Qed.

Lemma page_search_failure_as_no_match_witness :
  shown (process_and_display_results
           (sample_env (Ok []) (Ok tt) (Ok failing_store))
           (sample_narrator None (Ok "Strong match."))
           sample_presentation "Python developer" "resumes") =
  [ st_spinner "Extracting text from resumes...";
    st_spinner "Creating vector store and embeddings...";
    st_spinner "Ranking resumes against the job description...";
    st_warning "Could not rank any candidates." ]
  /\ ending (process_and_display_results
               (sample_env (Ok []) (Ok tt) (Ok failing_store))
               (sample_narrator None (Ok "Strong match."))
               sample_presentation "Python developer" "resumes") = Ok tt.
Proof.
  apply (page_search_failure_as_no_match
           (sample_env (Ok []) (Ok tt) (Ok failing_store))
           (sample_narrator None (Ok "Strong match."))
           sample_presentation "Python developer" "resumes"
           [ mkDocument "Python developer, Django, ML" {[ "source" := "a.pdf" ]};
             mkDocument ("Java developer" ++ newline ++ "Spring")
               {[ "source" := "b.docx" ]} ]
           failing_store).
  - vm_compute. reflexivity.
  - discriminate.
  - reflexivity.
  - right. left. exists (Exception "index unavailable"). reflexivity.
Defined.

(** X16: the exported table.  When documents were found, the store was
    built and the ranking is not empty, the page ends with the export
    header, the metric "Estimated Time Saved (minutes)" valued five times
    the number of documents, and the download button, whose data is the
    CSV of one row per ranked candidate, in ranking order: the row at
    position [i] has rank [i + 1], the candidate's source as file, its
    formatted score, and the summary [generate_summary] returns for it. *)
Theorem page_results_table (env : Libraries) (nenv : Narrator)
    (pres : Presentation) (jd folder : string) (docs : list Document)
    (vs : FAISS) (l : list candidate) :
  outcome (get_documents_from_folder env folder) = Ok docs ->
  docs <> [] ->
  outcome (create_vector_store env docs) = Ok vs ->
  outcome (rank_resumes vs jd 10) = Ok l ->
  l <> [] ->
  exists events rows,
    shown (process_and_display_results env nenv pres jd folder) =
    events ++
    [ st_header "📊 Business Value & Export";
      st_metric "Estimated Time Saved (minutes)" (length docs * 5);
      st_download_button "Download Results as CSV" (to_csv pres rows)
        "ranked_resumes.csv" "text/csv" ] /\
    length rows = length l /\
    forall i c, l !! i = Some c ->
      exists r,
        rows !! i = Some r /\
        Rank r = (i + 1)%nat /\
        File r = source c /\
        Similarity_Score r = format_2f pres (score c) /\
        outcome (generate_summary nenv c jd) = Ok (AI_Summary r).
Proof.
  intros Hdocs Hne Hstore Hrank Hl.
  exists ([ st_spinner "Extracting text from resumes...";
            st_spinner "Creating vector store and embeddings...";
            st_spinner "Ranking resumes against the job description...";
            st_success ("Successfully ranked " ++ str_of_nat (length l)
                        ++ " candidates!");
            st_header "Top Candidates" ]
          ++ shown (display_candidates nenv pres jd l 0 [])),
         (candidate_rows nenv pres jd l 0).
  split; [|split].
  - unfold process_and_display_results.
    rewrite shown_bindA, shown_show, ending_show, shown_bindA, shown_run,
      ending_run, Hdocs.
    destruct docs as [|d docs]; [contradiction|].
    rewrite shown_bindA, shown_show, ending_show, shown_bindA,
      shown_try_exceptA, ending_try_exceptA, shown_bindA, ending_bindA,
      shown_run, ending_run, Hstore.
    cbn [retA shown ending fst snd outcome ret app].
    rewrite shown_bindA, shown_show, ending_show, shown_bindA, shown_run,
      ending_run, Hrank.
    destruct l as [|c l]; [contradiction|].
    rewrite !shown_bindA, !shown_show, !ending_show,
      display_candidates_ending.
    rewrite !shown_bindA, !shown_show, !ending_show.
    cbn [app]. reflexivity.
  - apply candidate_rows_length.
  - intros i c Hi. eexists. split; [apply candidate_rows_lookup, Hi|].
    simpl. repeat split. apply generate_summary_returns.
Qed.

Lemma page_results_table_witness :
  exists events rows,
    shown (process_and_display_results
             (sample_env (Ok []) (Ok tt) (Ok sample_store))
             (sample_narrator (Some "key") (Ok "Strong match."))
             sample_presentation "Python developer" "resumes") =
    events ++
    [ st_header "📊 Business Value & Export";
      st_metric "Estimated Time Saved (minutes)" 10;
      st_download_button "Download Results as CSV"
        (to_csv sample_presentation rows) "ranked_resumes.csv" "text/csv" ] /\
    length rows = 3%nat /\
    forall i c,
      [ mkCandidate "a.pdf" (3#4) "Python developer";
        mkCandidate "b.docx" (1#2) "Java developer";
        mkCandidate "a.pdf" (-1#2) "Django, ML" ] !! i = Some c ->
      exists r,
        rows !! i = Some r /\
        Rank r = (i + 1)%nat /\
        File r = source c /\
        Similarity_Score r = format_2f sample_presentation (score c) /\
        outcome (generate_summary
                   (sample_narrator (Some "key") (Ok "Strong match."))
                   c "Python developer") = Ok (AI_Summary r).
Proof.
  apply (page_results_table
           (sample_env (Ok []) (Ok tt) (Ok sample_store))
           (sample_narrator (Some "key") (Ok "Strong match."))
           sample_presentation "Python developer" "resumes"
           [ mkDocument "Python developer, Django, ML" {[ "source" := "a.pdf" ]};
             mkDocument ("Java developer" ++ newline ++ "Spring")
               {[ "source" := "b.docx" ]} ]
           sample_store
           [ mkCandidate "a.pdf" (3#4) "Python developer";
             mkCandidate "b.docx" (1#2) "Java developer";
             mkCandidate "a.pdf" (-1#2) "Django, ML" ]).
  - vm_compute. reflexivity.
  - discriminate.
  - reflexivity.
  - vm_compute. reflexivity.
  - discriminate.
Defined.

(** ** The file kind *)

Lemma substring_whole (s : string) : String.substring 0 (String.length s) s = s.
Proof. induction s as [|a s IH]; simpl; [reflexivity|now rewrite IH]. Qed.

Lemma substring_past_prefix (p s : string) (m : nat) :
  String.substring (String.length p) m (p ++ s) = String.substring 0 m s.
Proof. induction p as [|a p IH]; simpl; [reflexivity|apply IH]. Qed.

Lemma length_append (p s : string) :
  String.length (p ++ s) = (String.length p + String.length s)%nat.
Proof. induction p as [|a p IH]; simpl; [reflexivity|now rewrite IH]. Qed.

Lemma substring_split (s : string) (k : nat) :
  (k <= String.length s)%nat ->
  s = (String.substring 0 k s
       ++ String.substring k (String.length s - k) s)%string.
Proof.
  revert k. induction s as [|a s IH]; intros k Hk.
  - simpl in Hk. assert (k = 0%nat) as -> by lia. reflexivity.
  - destruct k as [|k].
    + simpl. now rewrite substring_whole.
    + simpl in Hk.
      transitivity
        (String a (String.substring 0 k s
                   ++ String.substring k (String.length s - k) s)%string);
        [|reflexivity].
      f_equal. apply IH. lia.
Qed.

Lemma endswith_iff (s suffix : string) :
  endswith s suffix = true <-> exists p, s = (p ++ suffix)%string.
Proof.
  unfold endswith. rewrite andb_true_iff, Nat.leb_le, String.eqb_eq. split.
  - intros [Hle Hsub].
    exists (String.substring 0 (String.length s - String.length suffix) s).
    pose proof (substring_split s (String.length s - String.length suffix)
                  ltac:(lia)) as H.
    replace (String.length s - (String.length s - String.length suffix))%nat
      with (String.length suffix) in H by lia.
    rewrite Hsub in H. exact H.
  - intros [p ->]. rewrite length_append. split; [lia|].
    replace (String.length p + String.length suffix - String.length suffix)%nat
      with (String.length p) by lia.
    now rewrite substring_past_prefix, substring_whole.
Qed.

Lemma endswith_false_iff (s suffix : string) :
  endswith s suffix = false <-> forall p, s <> (p ++ suffix)%string.
Proof.
  rewrite <- not_true_iff_false, endswith_iff. split.
  - intros H p Hp. apply H. now exists p.
  - intros H [p Hp]. exact (H p Hp).
Qed.

Lemma list_ascii_of_append (a b : string) :
  String.list_ascii_of_string (a ++ b) =
  String.list_ascii_of_string a ++ String.list_ascii_of_string b.
Proof.
  induction a as [|c a IH]; [reflexivity|].
  change (String.list_ascii_of_string (String c (a ++ b)) =
          c :: (String.list_ascii_of_string a ++ String.list_ascii_of_string b)).
  simpl. now rewrite IH.
Qed.

Lemma docx_is_not_pdf (p q : string) : (p ++ ".docx")%string <> (q ++ ".pdf")%string.
Proof.
  intros H. apply (f_equal String.list_ascii_of_string) in H.
  rewrite !list_ascii_of_append in H.
  change (String.list_ascii_of_string ".docx")
    with (String.list_ascii_of_string ".doc" ++ String.list_ascii_of_string "x") in H.
  change (String.list_ascii_of_string ".pdf")
    with (String.list_ascii_of_string ".pd" ++ String.list_ascii_of_string "f") in H.
  rewrite !app_assoc in H. apply app_inj_tail in H as [_ H]. discriminate.
Qed.

(** X17: the file kind is read off the end of the path.  A path of the
    form [p.pdf] goes to the PDF parser and yields its page texts joined
    without separator; a path of the form [p.docx] goes to the DOCX parser
    and yields its paragraphs joined by newlines; in both cases a parser
    failure yields the empty text.  Any other path yields the empty text
    whatever the parsers would do. *)
Theorem file_kind_by_suffix (env : Libraries) (file_path : string) :
  ((exists p, file_path = (p ++ ".pdf")%string) ->
   outcome (extract_text_from_file env file_path) =
   Ok match fitz_page_texts env file_path with
      | Ok pages => join "" pages
      | Raise _ => ""
      end) /\
  ((exists p, file_path = (p ++ ".docx")%string) ->
   outcome (extract_text_from_file env file_path) =
   Ok match docx_paragraph_texts env file_path with
      | Ok paragraphs => join newline paragraphs
      | Raise _ => ""
      end) /\
  ((forall p, file_path <> (p ++ ".pdf")%string) ->
   (forall p, file_path <> (p ++ ".docx")%string) ->
   outcome (extract_text_from_file env file_path) = Ok "").
Proof.
  unfold extract_text_from_file. repeat split.
  - intros H. apply endswith_iff in H. rewrite H.
    now destruct (fitz_page_texts env file_path).
  - intros Hdocx.
    assert (Hpdf : endswith file_path ".pdf" = false).
    { apply endswith_false_iff. intros q Hq. destruct Hdocx as [p ->].
      exact (docx_is_not_pdf p q Hq). }
    apply endswith_iff in Hdocx.
    rewrite Hpdf, Hdocx. now destruct (docx_paragraph_texts env file_path).
  - intros Hpdf Hdocx.
    apply endswith_false_iff in Hpdf, Hdocx. now rewrite Hpdf, Hdocx.
Qed.

Lemma file_kind_by_suffix_witness :
  outcome (extract_text_from_file
             (sample_env (Ok []) (Ok tt) (Ok sample_store)) "resumes/a.pdf")
  = Ok "Python developer, Django, ML" /\
  outcome (extract_text_from_file
             (sample_env (Ok []) (Ok tt) (Ok sample_store)) "resumes/b.docx")
  = Ok ("Java developer" ++ newline ++ "Spring")%string /\
  outcome (extract_text_from_file
             (sample_env (Ok []) (Ok tt) (Ok sample_store)) "resumes/notes.txt")
  = Ok "".
Proof.
  split; [|split].
  - apply (proj1 (file_kind_by_suffix
                    (sample_env (Ok []) (Ok tt) (Ok sample_store))
                    "resumes/a.pdf")).
    now exists "resumes/a".
  - apply (proj1 (proj2 (file_kind_by_suffix
                           (sample_env (Ok []) (Ok tt) (Ok sample_store))
                           "resumes/b.docx"))).
    now exists "resumes/b".
  - apply (proj2 (proj2 (file_kind_by_suffix
                           (sample_env (Ok []) (Ok tt) (Ok sample_store))
                           "resumes/notes.txt"))).
    + apply endswith_false_iff. reflexivity.
    + apply endswith_false_iff. reflexivity.
Defined.

(** ** The ranker over floats *)

Lemma fle_nan_l (x : Fp.float) : Fp.fle Fp.NaN x = false.
Proof. reflexivity. Qed.

Lemma fle_nan_r (x : Fp.float) : Fp.fle x Fp.NaN = false.
Proof. now destruct x. Qed.

Lemma fle_total (x y : Fp.float) :
  Fp.is_nan x = false -> Fp.is_nan y = false ->
  Fp.fle x y = true \/ Fp.fle y x = true.
Proof.
  destruct x as [p| | |], y as [q| | |]; simpl; intros Hx Hy;
    try discriminate; auto.
  rewrite !Qle_bool_iff.
  destruct (Qlt_le_dec p q) as [H|H]; [left|right]; [|exact H].
  now apply Qlt_le_weak.
Qed.

Lemma fle_trans (x y z : Fp.float) :
  Fp.fle x y = true -> Fp.fle y z = true -> Fp.fle x z = true.
Proof.
  destruct x as [p| | |], y as [q| | |], z as [r| | |]; simpl;
    try discriminate; auto.
  rewrite !Qle_bool_iff. apply Qle_trans.
Qed.

Lemma fle_refl (x : Fp.float) : Fp.is_nan x = false -> Fp.fle x x = true.
Proof.
  destruct x as [p| | |]; simpl; try discriminate; auto.
  intros _. apply Qle_bool_iff, Qle_refl.
Qed.

Lemma is_nan_one_minus (d : Fp.float) :
  Fp.is_nan (Fp.fsub (Fp.Finite 1) d) = Fp.is_nan d.
Proof. now destruct d. Qed.

Lemma fp_collect_candidates_map (results : list (Document * Fp.float)) :
  Fp.collect_candidates results =
  map (fun r => Fp.candidate_info (fst r) (snd r)) results.
Proof.
  unfold Fp.collect_candidates.
  enough (H : forall acc,
    fold_left (fun acc r => acc ++ [Fp.candidate_info (fst r) (snd r)]) results acc =
    acc ++ map (fun r => Fp.candidate_info (fst r) (snd r)) results)
    by apply (H []).
  induction results as [|r rs IH]; intros acc; simpl.
  - now rewrite app_nil_r.
  - rewrite IH, <- app_assoc. reflexivity.
Qed.

Lemma fp_rank_resumes_outcome (py : Fp.Runtime) (vs : Fp.FAISS) (jd : string)
    (k : Z) :
  outcome (Fp.rank_resumes py vs jd k) =
  if String.eqb jd "" then Ok []
  else match Fp.similarity_search_with_score vs jd k with
       | Ok results =>
           Ok (Fp.list_sort_desc py (Fp.collect_candidates results))
       | Raise _ => Ok []
       end.
Proof.
  unfold Fp.rank_resumes. destruct (String.eqb jd ""); [reflexivity|].
  now destruct (Fp.similarity_search_with_score vs jd k).
Qed.

(** Without a NaN among the distances, the runtime's sort is the stable
    descending sort of the candidates. *)
Lemma fp_sort_without_nan (py : Fp.Runtime) (results : list (Document * Fp.float)) :
  (forall doc d, (doc, d) ∈ results -> Fp.is_nan d = false) ->
  Fp.list_sort_desc py (Fp.collect_candidates results) =
  stable_sort Fp.score_desc (Fp.collect_candidates results).
Proof.
  intros Hnan. apply Fp.list_sort_ordered. intros c Hc.
  rewrite fp_collect_candidates_map in Hc.
  apply list_elem_of_fmap in Hc as ([doc d] & -> & Hin).
  cbn [Fp.candidate_info Fp.score fst snd]. rewrite is_nan_one_minus. eauto.
Qed.

Lemma fp_sorted_without_nan (l : list Fp.candidate) :
  (forall c, c ∈ l -> Fp.is_nan (Fp.score c) = false) ->
  Sorted (fun a b => Fp.score_desc a b = true) (stable_sort Fp.score_desc l).
Proof.
  intros Hnan. apply stable_sort_sorted. intros x y Hx Hy.
  unfold Fp.score_desc.
  destruct (fle_total (Fp.score x) (Fp.score y)); auto.
Qed.

(** A list of two or more floats-scored entries with a NaN among them has
    an adjacent pair out of order, however it is arranged. *)
Lemma nan_breaks_order (l : list Fp.candidate) (c : Fp.candidate) :
  c ∈ l -> Fp.is_nan (Fp.score c) = true -> (2 <= length l)%nat ->
  exists i a b,
    l !! i = Some a /\ l !! S i = Some b /\
    Fp.fle (Fp.score b) (Fp.score a) = false.
Proof.
  intros Hc Hnan Hlen.
  assert (Hs : Fp.score c = Fp.NaN) by (now destruct (Fp.score c)).
  apply list_elem_of_lookup in Hc as [i Hi].
  destruct (l !! S i) as [b|] eqn:Hb.
  - exists i, c, b. rewrite Hs, fle_nan_r. auto.
  - destruct i as [|i].
    + destruct l as [|x [|y l]]; simpl in *; try lia; discriminate.
    + destruct (l !! i) as [a|] eqn:Ha.
      * exists i, a, c. rewrite Hs, fle_nan_l. auto.
      * apply lookup_ge_None in Ha. apply lookup_lt_Some in Hi. lia.
Qed.

Lemma stable_sort_map {A B : Type} (f : A -> B) (leb : A -> A -> bool)
    (leb' : B -> B -> bool) (l : list A) :
  (forall x y, leb' (f x) (f y) = leb x y) ->
  stable_sort leb' (map f l) = map f (stable_sort leb l).
Proof.
  intros Hleb. induction l as [|x l IH]; [reflexivity|].
  cbn [map stable_sort foldr]. fold (stable_sort leb' (map f l)).
  fold (stable_sort leb l). rewrite IH.
  generalize (stable_sort leb l). intros s.
  induction s as [|y s IHs]; [reflexivity|].
  cbn [map insert_sorted]. rewrite Hleb.
  destruct (leb x y); [reflexivity|]. cbn [map]. now rewrite IHs.
Qed.

(** On a store whose distances are numbers, [rank_resumes] over floats is
    [rank_resumes] over exact scores: the same log, and the same list read
    over floats. *)
Lemma float_rank_resumes (py : Fp.Runtime) (vs : FAISS) (jd : string) (k : Z) :
  Fp.rank_resumes py (float_store vs) jd k =
  (fst (rank_resumes vs jd k),
   match outcome (rank_resumes vs jd k) with
   | Ok l => Ok (map float_candidate l)
   | Raise e => Raise e
   end).
Proof.
  unfold Fp.rank_resumes, rank_resumes, float_store.
  destruct (String.eqb jd ""); [reflexivity|].
  cbn [Fp.similarity_search_with_score].
  destruct (similarity_search_with_score vs jd k) as [results|e];
    [|reflexivity].
  assert (Hc : Fp.collect_candidates
                 (map (fun r => (fst r, Fp.Finite (snd r))) results) =
               map float_candidate (collect_candidates results)).
  { rewrite fp_collect_candidates_map, collect_candidates_map, !map_map.
    reflexivity. }
  assert (Hs : Fp.list_sort_desc py
                 (Fp.collect_candidates
                    (map (fun r => (fst r, Fp.Finite (snd r))) results)) =
               map float_candidate (sort_desc (collect_candidates results))).
  { rewrite Hc, Fp.list_sort_ordered.
    - now apply stable_sort_map.
    - intros c Hin. apply list_elem_of_fmap in Hin as (c0 & -> & _).
      reflexivity. }
  cbn [call bind try_except]. rewrite Hs, length_map. reflexivity.
Qed.

(** With the distances 0.5, NaN and 0.25 the returned list has an adjacent
    pair with [score[i] >= score[i+1]] false, however the runtime's sort
    arranges the three entries. *)
Lemma nan_store_out_of_order (py : Fp.Runtime) :
  exists l i a b,
    outcome (Fp.rank_resumes py nan_store "Python developer" 5) = Ok l /\
    l !! i = Some a /\ l !! S i = Some b /\
    Fp.fle (Fp.score b) (Fp.score a) = false.
Proof.
  exists (Fp.list_sort_desc py
            [ Fp.mkCandidate "a.pdf" (Fp.Finite (1 - (1#2))) "Python developer";
              Fp.mkCandidate "b.docx" Fp.NaN "Java developer";
              Fp.mkCandidate "a.pdf" (Fp.Finite (1 - (1#4))) "Django, ML" ]).
  destruct (nan_breaks_order
              (Fp.list_sort_desc py
                 [ Fp.mkCandidate "a.pdf" (Fp.Finite (1 - (1#2))) "Python developer";
                   Fp.mkCandidate "b.docx" Fp.NaN "Java developer";
                   Fp.mkCandidate "a.pdf" (Fp.Finite (1 - (1#4))) "Django, ML" ])
              (Fp.mkCandidate "b.docx" Fp.NaN "Java developer"))
    as (i & a & b & H).
  - rewrite <- (Fp.list_sort_rearranges py). set_solver.
  - reflexivity.
  - rewrite <- (Permutation_length (Fp.list_sort_rearranges py _)). simpl. lia.
  - exists i, a, b. split; [reflexivity|exact H].
Qed.




(** C1, amended: for a non-empty job description and a search that
    succeeds, [rank_resumes] returns one entry per retrieved chunk (a
    rearrangement of the chunks' candidate records: a source occurs once
    per retrieved chunk of it); and when no retrieved distance is NaN, the
    first entry of a source in the list has the best score of that
    source. *)
Theorem rank_resumes_entry_per_chunk (py : Fp.Runtime) (vs : Fp.FAISS)
    (jd : string) (k : Z) (results : list (Document * Fp.float)) :
  jd <> "" ->
  Fp.similarity_search_with_score vs jd k = Ok results ->
  exists l,
    outcome (Fp.rank_resumes py vs jd k) = Ok l /\
    Permutation l (map (fun r => Fp.candidate_info (fst r) (snd r)) results) /\
    ((forall doc d, (doc, d) ∈ results -> Fp.is_nan d = false) ->
     forall l1 c l2, l = l1 ++ c :: l2 ->
       (forall c0, c0 ∈ l1 -> Fp.source c0 <> Fp.source c) ->
       forall c', c' ∈ l -> Fp.source c' = Fp.source c ->
         Fp.fle (Fp.score c') (Fp.score c) = true).
Proof.
  intros Hjd Hs.
  exists (Fp.list_sort_desc py (Fp.collect_candidates results)).
  split; [|split].
  - rewrite fp_rank_resumes_outcome, Hs.
    apply String.eqb_neq in Hjd. now rewrite Hjd.
  - rewrite <- fp_collect_candidates_map. symmetry.
    apply Fp.list_sort_rearranges.
  - intros Hnan l1 c l2 Hl Hfirst c' Hin Hsrc.
    rewrite (fp_sort_without_nan py results Hnan) in Hl, Hin.
    assert (Hnan' : forall c, c ∈ Fp.collect_candidates results ->
                      Fp.is_nan (Fp.score c) = false).
    { intros c0 Hc0. rewrite fp_collect_candidates_map in Hc0.
      apply list_elem_of_fmap in Hc0 as ([doc d] & -> & Hd).
      cbn [Fp.candidate_info Fp.score fst snd]. rewrite is_nan_one_minus.
      eauto. }
    pose proof (fp_sorted_without_nan _ Hnan') as Hsorted.
    apply Sorted_StronglySorted in Hsorted;
      [|intros x y z Hxy Hyz; unfold Fp.score_desc in *;
        eapply fle_trans; eassumption].
    assert (Hc : Fp.is_nan (Fp.score c) = false).
    { apply Hnan'. rewrite (stable_sort_perm Fp.score_desc), Hl. set_solver. }
    rewrite Hl in Hsorted, Hin.
    apply elem_of_app in Hin as [Hin|Hin]; [now destruct (Hfirst c' Hin)|].
    apply elem_of_cons in Hin as [->|Hin]; [now apply fle_refl|].
    apply StronglySorted_app_1_r, StronglySorted_inv in Hsorted.
    destruct Hsorted as [_ Hall].
    rewrite List.Forall_forall in Hall.
    apply Hall. now apply list_elem_of_In.
Qed.

Lemma rank_resumes_entry_per_chunk_witness :
  exists l,
    outcome (Fp.rank_resumes sample_runtime tied_store "Python developer" 5)
      = Ok l /\
    Permutation l
      (map (fun r => Fp.candidate_info (fst r) (snd r))
         [ (chunk_b, Fp.Finite (1#2)); (chunk_a1, Fp.Finite (1#4));
           (chunk_a2, Fp.Finite (2#4)) ]) /\
    ((forall doc d,
        (doc, d) ∈ [ (chunk_b, Fp.Finite (1#2)); (chunk_a1, Fp.Finite (1#4));
                     (chunk_a2, Fp.Finite (2#4)) ] ->
        Fp.is_nan d = false) ->
     forall l1 c l2, l = l1 ++ c :: l2 ->
       (forall c0, c0 ∈ l1 -> Fp.source c0 <> Fp.source c) ->
       forall c', c' ∈ l -> Fp.source c' = Fp.source c ->
         Fp.fle (Fp.score c') (Fp.score c) = true).
Proof.
  apply (rank_resumes_entry_per_chunk sample_runtime tied_store
           "Python developer" 5%Z).
  - discriminate.
  - reflexivity.
Defined.

Lemma same_score_may_precede (q : Fp.float) (c c' : Fp.candidate) :
  Fp.feq (Fp.score c) q = true ->
  Fp.feq (Fp.score c') q = true ->
  Fp.score_desc c c' = true.
Proof.
  unfold Fp.feq, Fp.score_desc. rewrite !andb_true_iff.
  intros [_ H1] [H2 _]. eapply fle_trans; eassumption.
Qed.

(** X4: without a NaN, ties keep the order of retrieval.  For a non-empty
    job description and a search that succeeds with no NaN among its
    distances, the entries of the result whose score equals any given value
    are, in the same order, the candidates of the retrieved pairs with that
    score. *)
Theorem rank_resumes_ties_keep_order (py : Fp.Runtime) (vs : Fp.FAISS)
    (jd : string) (k : Z) (results : list (Document * Fp.float))
    (q : Fp.float) :
  jd <> "" ->
  Fp.similarity_search_with_score vs jd k = Ok results ->
  (forall doc d, (doc, d) ∈ results -> Fp.is_nan d = false) ->
  exists l,
    outcome (Fp.rank_resumes py vs jd k) = Ok l /\
    List.filter (fun c => Fp.feq (Fp.score c) q) l =
    List.filter (fun c => Fp.feq (Fp.score c) q)
      (map (fun r => Fp.candidate_info (fst r) (snd r)) results).
Proof.
  intros Hjd Hs Hnan.
  exists (Fp.list_sort_desc py (Fp.collect_candidates results)). split.
  - rewrite fp_rank_resumes_outcome, Hs.
    apply String.eqb_neq in Hjd. now rewrite Hjd.
  - rewrite (fp_sort_without_nan py results Hnan), fp_collect_candidates_map.
    apply stable_sort_filter. apply same_score_may_precede.
Qed.

Lemma rank_resumes_ties_keep_order_witness :
  exists l,
    outcome (Fp.rank_resumes sample_runtime tied_store "Python developer" 5)
      = Ok l /\
    List.filter (fun c => Fp.feq (Fp.score c) (Fp.Finite (1#2))) l =
    List.filter (fun c => Fp.feq (Fp.score c) (Fp.Finite (1#2)))
      (map (fun r => Fp.candidate_info (fst r) (snd r))
         [ (chunk_b, Fp.Finite (1#2)); (chunk_a1, Fp.Finite (1#4));
           (chunk_a2, Fp.Finite (2#4)) ]).
Proof.
  apply (rank_resumes_ties_keep_order sample_runtime tied_store
           "Python developer" 5%Z).
  - discriminate.
  - reflexivity.
  - intros doc d Hd.
    apply elem_of_cons in Hd as [[= _ ->]|Hd]; [reflexivity|].
    apply elem_of_cons in Hd as [[= _ ->]|Hd]; [reflexivity|].
    apply elem_of_cons in Hd as [[= _ ->]|Hd]; [reflexivity|].
    inversion Hd.
Defined.

(** X5: without a NaN, the best match comes first.  When the search
    succeeds with no NaN among its distances, the first entry of the
    returned list has a score at least [1 - distance] for every retrieved
    (chunk, distance) pair. *)
Theorem rank_resumes_best_first (py : Fp.Runtime) (vs : Fp.FAISS)
    (jd : string) (k : Z) (results : list (Document * Fp.float))
    (c : Fp.candidate) (rest : list Fp.candidate)
    (doc : Document) (distance : Fp.float) :
  Fp.similarity_search_with_score vs jd k = Ok results ->
  (forall doc d, (doc, d) ∈ results -> Fp.is_nan d = false) ->
  outcome (Fp.rank_resumes py vs jd k) = Ok (c :: rest) ->
  (doc, distance) ∈ results ->
  Fp.fle (Fp.fsub (Fp.Finite 1) distance) (Fp.score c) = true.
Proof.
  intros Hs Hnan Hl Hin. rewrite fp_rank_resumes_outcome, Hs in Hl.
  destruct (String.eqb jd ""); [discriminate|]. injection Hl as Hl.
  rewrite (fp_sort_without_nan py results Hnan) in Hl.
  assert (Hnan' : forall c, c ∈ Fp.collect_candidates results ->
                    Fp.is_nan (Fp.score c) = false).
  { intros c0 Hc0. rewrite fp_collect_candidates_map in Hc0.
    apply list_elem_of_fmap in Hc0 as ([doc0 d0] & -> & Hd).
    cbn [Fp.candidate_info Fp.score fst snd]. rewrite is_nan_one_minus.
    eauto. }
  pose proof (fp_sorted_without_nan _ Hnan') as Hsorted.
  apply Sorted_StronglySorted in Hsorted;
    [|intros x y z Hxy Hyz; unfold Fp.score_desc in *;
      eapply fle_trans; eassumption].
  apply (list_elem_of_fmap_2 (fun r => Fp.candidate_info (fst r) (snd r))) in Hin.
  rewrite <- fp_collect_candidates_map in Hin.
  pose proof (Hnan' _ Hin) as Hfinite.
  rewrite (stable_sort_perm Fp.score_desc) in Hin.
  rewrite Hl in Hsorted, Hin.
  apply elem_of_cons in Hin as [Heq|Hin].
  - rewrite <- Heq. now apply fle_refl.
  - apply StronglySorted_inv in Hsorted as [_ Hall].
    rewrite List.Forall_forall in Hall.
    apply list_elem_of_In, Hall in Hin. exact Hin.
Qed.

Lemma rank_resumes_best_first_witness :
  Fp.fle (Fp.fsub (Fp.Finite 1) (Fp.Finite (2#4)))
         (Fp.score (Fp.mkCandidate "a.pdf" (Fp.Finite (1 - (1#4)))
                      "Python developer"))
  = true.
Proof.
  apply (rank_resumes_best_first sample_runtime tied_store
           "Python developer" 5
           [ (chunk_b, Fp.Finite (1#2)); (chunk_a1, Fp.Finite (1#4));
             (chunk_a2, Fp.Finite (2#4)) ]
           (Fp.mkCandidate "a.pdf" (Fp.Finite (1 - (1#4))) "Python developer")
           [ Fp.mkCandidate "b.docx" (Fp.Finite (1 - (1#2))) "Java developer";
             Fp.mkCandidate "a.pdf" (Fp.Finite (1 - (2#4))) "Django, ML" ]
           chunk_a2).
  - reflexivity.
  - intros doc d Hd.
    apply elem_of_cons in Hd as [[= _ ->]|Hd]; [reflexivity|].
    apply elem_of_cons in Hd as [[= _ ->]|Hd]; [reflexivity|].
    apply elem_of_cons in Hd as [[= _ ->]|Hd]; [reflexivity|].
    inversion Hd.
  - vm_compute. reflexivity.
  - set_solver.
Defined.
